(** * Sentiment enrichment worker (main.py): a shallow embedding

    The worker polls call-note records from Kafka, asks a Groq model for a
    sentiment label and for follow-up actions (with a second model as a
    fallback), and republishes the record with a [result] field.

    Modelling choices.
    - A Python [str] is held as the [string] of its UTF-8 bytes.  [strip]
      removes every character Python takes as whitespace, the ones outside
      ASCII included, by reading their encodings; [lower] changes the ASCII
      letters only, which is all that the prefix test of the gate can
      see.
    - The two chat models, the Kafka producer and the polled messages are
      outside the program.  The models and the producer are operations on an
      abstract [World]; the messages are the list of values [consumer.poll]
      returns.
    - A computation of the program is a function from the world to a [Run]:
      the value returned or the exception raised, the world afterwards, and
      the events emitted, in order (model calls, prints, produce, flush,
      sleep).
    - [except Exception] catches every exception the model can raise:
      [KeyboardInterrupt] is not represented. *)

From Stdlib Require Import String Ascii List Bool Arith ZArith Lia.
From Stdlib Require Import Floats.SpecFloat.
Import ListNotations.
Open Scope string_scope.

(** ** Python strings *)

Definition nl : string := String (ascii_of_nat 10) EmptyString.
Definition dq : string := String (ascii_of_nat 34) EmptyString.

(** The value of one byte. *)
Definition code (a : ascii) : N := N_of_ascii a.

(** [str.isspace] on one code point, which is also the set [str.strip]
    removes: TAB LF VT FF CR, FS GS RS US, the space, NEL, the no-break
    space, the Ogham space mark, EN QUAD to HAIR SPACE, the line and the
    paragraph separator, the narrow no-break space, the medium mathematical
    space and the ideographic space. *)
Definition isspace (cp : N) : bool :=
  (((9 <=? cp) && (cp <=? 13)) || ((28 <=? cp) && (cp <=? 32))
   || (cp =? 0x85) || (cp =? 0xA0) || (cp =? 0x1680)
   || ((0x2000 <=? cp) && (cp <=? 0x200A))
   || (cp =? 0x2028) || (cp =? 0x2029) || (cp =? 0x202F)
   || (cp =? 0x205F) || (cp =? 0x3000))%N.

Definition continuation (b : ascii) : bool :=
  ((0x80 <=? code b) && (code b <=? 0xBF))%N.

(** A whitespace character encoded on one, two or three bytes.  No
    character of four bytes is whitespace. *)
Definition space1 (a : ascii) : bool :=
  ((code a <? 0x80) && isspace (code a))%N.

Definition space2 (a b : ascii) : bool :=
  ((0xC2 <=? code a) && (code a <=? 0xDF) && continuation b
   && isspace ((code a - 0xC0) * 64 + (code b - 0x80)))%N.

Definition space3 (a b c : ascii) : bool :=
  let cp := ((code a - 0xE0) * 4096 + (code b - 0x80) * 64 + (code c - 0x80))%N in
  ((0xE0 <=? code a) && (code a <=? 0xEF) && continuation b && continuation c
   && (0x800 <=? cp) && isspace cp)%N.

(** [s.lstrip()]: the leading whitespace characters are dropped, one
    character at a time. *)
Fixpoint lstrip (s : string) : string :=
  match s with
  | EmptyString => EmptyString
  | String a s1 =>
      if space1 a then lstrip s1
      else
        match s1 with
        | EmptyString => s
        | String b s2 =>
            if space2 a b then lstrip s2
            else
              match s2 with
              | EmptyString => s
              | String c s3 => if space3 a b c then lstrip s3 else s
              end
        end
  end.

(** [s] consists of whitespace characters only (or is empty). *)
Definition all_space (s : string) : bool :=
  match lstrip s with
  | EmptyString => true
  | String _ _ => false
  end.

(** [s.rstrip()]: the text is cut where what follows is whitespace only. *)
Fixpoint rstrip (s : string) : string :=
  match s with
  | EmptyString => EmptyString
  | String c s' => if all_space s then EmptyString else String c (rstrip s')
  end.

(** [s.strip()] *)
Definition strip (s : string) : string := rstrip (lstrip s).

(** The UTF-8 encoding of one code point. *)
Definition utf8 (cp : N) : string :=
  let b (n : N) := String (ascii_of_N n) EmptyString in
  (if cp <? 0x80 then b cp
   else if cp <? 0x800 then b (0xC0 + cp / 64) ++ b (0x80 + cp mod 64)
   else if cp <? 0x10000 then
     b (0xE0 + cp / 4096) ++ b (0x80 + (cp / 64) mod 64) ++ b (0x80 + cp mod 64)
   else
     b (0xF0 + cp / 262144) ++ b (0x80 + (cp / 4096) mod 64)
     ++ b (0x80 + (cp / 64) mod 64) ++ b (0x80 + cp mod 64))%N.

(** Some whitespace outside ASCII, and a character that is not (the zero
    width space). *)
Definition NBSP : string := utf8 0xA0.
Definition NEL : string := utf8 0x85.
Definition EM_SPACE : string := utf8 0x2003.
Definition LINE_SEPARATOR : string := utf8 0x2028.
Definition IDEOGRAPHIC_SPACE : string := utf8 0x3000.
Definition ZERO_WIDTH_SPACE : string := utf8 0x200B.

(** The encoding of [cp] is whitespace for [strip] exactly when [cp] is
    whitespace for [isspace]; [check_step] runs that test over a range of
    code points. *)
Definition agree (cp : N) : bool := Bool.eqb (all_space (utf8 cp)) (isspace cp).

Definition check_step (st : N * bool) : N * bool :=
  (N.succ (fst st), snd st && agree (fst st)).

(** ** Text as code points, to state what [strip] does

    A text as the list of its code points, its encoding, and [str.strip] as
    Python defines it: the whitespace code points are dropped at both
    ends. *)
Fixpoint encode (cps : list N) : string :=
  match cps with
  | [] => EmptyString
  | cp :: cps' => utf8 cp ++ encode cps'
  end.

Fixpoint lstrip_code_points (cps : list N) : list N :=
  match cps with
  | [] => []
  | cp :: cps' => if isspace cp then lstrip_code_points cps' else cps
  end.

Definition strip_code_points (cps : list N) : list N :=
  rev (lstrip_code_points (rev (lstrip_code_points cps))).

(** The four shapes of the encoding of one code point. *)
Inductive utf8_shape (cp : N) : Prop :=
| shape1 a : utf8 cp = String a "" -> (code a < 0x80)%N -> utf8_shape cp
| shape2 a b : utf8 cp = String a (String b "") ->
               (0xC0 <= code a <= 0xDF)%N -> continuation b = true ->
               utf8_shape cp
| shape3 a b c : utf8 cp = String a (String b (String c "")) ->
                 (0xE0 <= code a <= 0xEF)%N ->
                 continuation b = true -> continuation c = true ->
                 utf8_shape cp
| shape4 a b c d : utf8 cp = String a (String b (String c (String d ""))) ->
                   (0xF0 <= code a)%N ->
                   continuation b = true -> continuation c = true ->
                   continuation d = true -> utf8_shape cp.

Definition lower_char (c : ascii) : ascii :=
  let n := nat_of_ascii c in
  if ((65 <=? n) && (n <=? 90))%nat then ascii_of_nat (n + 32) else c.

(** [s.lower()] on the ASCII letters.  The bytes of the other characters
    are kept: none of them becomes an ASCII letter that would complete the
    prefix the gate looks for. *)
Fixpoint lower (s : string) : string :=
  match s with
  | EmptyString => EmptyString
  | String c s' => String (lower_char c) (lower s')
  end.

(** [s.startswith(p)] *)
Definition startswith (s p : string) : bool := prefix p s.

(** ** Python values (what [json.loads] returns, and the result dict) *)

#[local] Set Warnings "-register-all".

Inductive pyval : Type :=
| PyNone
| PyBool (b : bool)
| PyInt (z : Z)
| PyFloat (f : spec_float)
| PyStr (s : string)
| PyList (l : list pyval)
| PyDict (d : list (string * pyval)).

(** A [dict] with [str] keys, in insertion order. *)
Definition dict : Type := list (string * pyval).

Fixpoint dict_get (k : string) (d : dict) : option pyval :=
  match d with
  | [] => None
  | (k', v) :: d' => if String.eqb k k' then Some v else dict_get k d'
  end.

(** [d[k] = v]: an existing key keeps its place, a new key goes last. *)
Fixpoint dict_set (k : string) (v : pyval) (d : dict) : dict :=
  match d with
  | [] => [(k, v)]
  | (k', v') :: d' =>
      if String.eqb k k' then (k, v) :: d' else (k', v') :: dict_set k v d'
  end.

Definition type_name (v : pyval) : string :=
  match v with
  | PyNone => "NoneType"
  | PyBool _ => "bool"
  | PyInt _ => "int"
  | PyFloat _ => "float"
  | PyStr _ => "str"
  | PyList _ => "list"
  | PyDict _ => "dict"
  end.

(** ** Exceptions, backends, events *)

(** An exception, with what [str(e)] gives. *)
Inductive PyExn : Type := Exception (msg : string).

Definition str_exn (e : PyExn) : string := let (m) := e in m.

Definition AttributeError (v : pyval) (attr : string) : PyExn :=
  Exception ("'" ++ type_name v ++ "' object has no attribute '" ++ attr ++ "'").

Definition TypeError_setitem (v : pyval) : PyExn :=
  Exception ("'" ++ type_name v ++ "' object does not support item assignment").

(** The two [ChatGroq] handles. *)
Inductive Backend : Type := groq_primary_llm | groq_fallback_llm.

(** What [llm.invoke(prompt).content] evaluates to: the text of the reply,
    or an exception (of the call, or of reading the reply). *)
Inductive Outcome : Type :=
| Content (text : string)
| Raise (e : PyExn).

Inductive Event : Type :=
| EvInvoke (b : Backend) (prompt : string)
| EvPrint (line : string)
| EvTraceback (e : PyExn)
| EvProduce (topic : string) (payload : pyval)
| EvFlush
| EvSleep (milliseconds : Z).

(** What one [consumer.poll(1.0)] gives the loop: nothing, a message whose
    [error()] is set, or a message whose value decodes
    ([json.loads(msg.value().decode("utf-8"))]) to a value or an exception. *)
Inductive Polled : Type :=
| PollNone
| PollError (err : string)
| PollValue (decoded : PyExn + pyval).

(** [continue] leaves the iteration before [sleep(0.25)]. *)
Inductive Flow : Type := FlowContinue | FlowNext.

(** The model calls among the events, in order. *)
Fixpoint calls_of (evs : list Event) : list (Backend * string) :=
  match evs with
  | [] => []
  | EvInvoke b p :: evs' => (b, p) :: calls_of evs'
  | _ :: evs' => calls_of evs'
  end.

(** The records handed to the producer, in order. *)
Fixpoint produced_of (evs : list Event) : list (string * pyval) :=
  match evs with
  | [] => []
  | EvProduce t p :: evs' => (t, p) :: produced_of evs'
  | _ :: evs' => produced_of evs'
  end.

Definition Backend_eqb (a b : Backend) : bool :=
  match a, b with
  | groq_primary_llm, groq_primary_llm => true
  | groq_fallback_llm, groq_fallback_llm => true
  | _, _ => false
  end.

Definition call_eqb (x y : Backend * string) : bool :=
  Backend_eqb (fst x) (fst y) && String.eqb (snd x) (snd y).

(** How many times backend [b] was called with [prompt]. *)
Definition attempts (b : Backend) (prompt : string)
    (calls : list (Backend * string)) : nat :=
  List.length (filter (call_eqb (b, prompt)) calls).

(** ** Prompt templates *)

(** [sentiment_prompt.format(notes=notes)] *)
Definition sentiment_prompt (notes : string) : string :=
  nl ++ "Classify the following cold call notes as one of the following sentiment labels:" ++ nl
  ++ "- Positive" ++ nl
  ++ "- Neutral / Follow-up Required" ++ nl
  ++ "- Negative" ++ nl
  ++ nl
  ++ "Notes:" ++ nl
  ++ notes ++ nl
  ++ nl
  ++ "Return only the label and reason." ++ nl.

(** [action_prompt.format(notes=notes, sentiment=sentiment)] *)
Definition action_prompt (notes sentiment : string) : string :=
  nl ++ "You are a sales assistant for a Kafka-based platform called Condense." ++ nl
  ++ nl
  ++ "The following are notes from a recent cold call:" ++ nl
  ++ dq ++ notes ++ dq ++ nl
  ++ nl
  ++ "Sentiment label: " ++ sentiment ++ nl
  ++ nl
  ++ "Based on this:" ++ nl
  ++ "- If the sentiment label is " ++ dq ++ "Positive" ++ dq ++ ":" ++ nl
  ++ "  - Carefully read the caller notes and come up with the sales reachout plan step by step which should be customised based on caller notes. Write ready-to-consume reachout and sales plan." ++ nl
  ++ nl
  ++ "- If the sentiment label is " ++ dq ++ "Follow-up Required" ++ dq ++ " or " ++ dq ++ "Neutral" ++ dq ++ ":" ++ nl
  ++ "  - Check the caller notes." ++ nl
  ++ "  - If there are signs of mild interest, or open-ended comments, come up with the sales reachout plan step by step which should be customised based on caller notes. Write ready-to-consume reachout and sales plan." ++ nl
  ++ nl
  ++ "- If the sentiment label is " ++ dq ++ "Negative" ++ dq ++ ":" ++ nl
  ++ "  - Do not suggest any follow-up. Just say: " ++ dq ++ "No further action recommended based on negative sentiment." ++ dq ++ nl
  ++ nl
  ++ "Respond clearly and helpfully." ++ nl.

(** ** The result dict *)

Definition enrichment_result (notes label reason actions : string) : dict :=
  [ ("Caller Notes", PyStr notes);
    ("Sentiment Label", PyStr label);
    ("Reason", PyStr reason);
    ("Next Action Items", PyStr actions) ].

(** The gate of line 115: [sentiment.lower().startswith("negative")]. *)
Definition negative_gate (sentiment : string) : bool :=
  startswith (lower sentiment) "negative".

(** "Starts with [p], ignoring case": some head of [s] is [p] up to the case
    of its letters. *)
Definition starts_with_ignoring_case (s p : string) : Prop :=
  exists head rest, s = head ++ rest /\ lower head = lower p.

(** The four keys of a result, each holding a [str]. *)
Definition result_keys : list string :=
  ["Caller Notes"; "Sentiment Label"; "Reason"; "Next Action Items"].

Definition well_formed_result (d : dict) : Prop :=
  map fst d = result_keys /\
  forall k, In k result_keys -> exists s, dict_get k d = Some (PyStr s).

(** ** Scripted surroundings, to run the program on examples

    The world is the list of the outcomes the next model calls will have,
    whichever handle and prompt they are for; once the script is used up
    every call raises. *)
Definition scripted_llm (b : Backend) (prompt : string) (script : list Outcome)
    : Outcome * list Outcome :=
  match script with
  | [] => (Raise (Exception "connection refused"), [])
  | o :: script' => (o, script')
  end.

Definition healthy_produce (topic : string) (payload : pyval)
    (script : list Outcome) : option PyExn * list Outcome :=
  (None, script).

Definition healthy_flush (script : list Outcome) : option PyExn * list Outcome :=
  (None, script).

Definition timeout_exn : PyExn := Exception "Request timed out.".

(** ** Start-up check (lines 13-21) *)

(** The process environment, after [load_dotenv()]. *)
Definition environ : Type := list (string * string).

(** [os.getenv(name)]: [None] when the variable is not set. *)
Fixpoint os_getenv (env : environ) (name : string) : option string :=
  match env with
  | [] => None
  | (n, v) :: env' => if String.eqb name n then Some v else os_getenv env' name
  end.

(** Truth value of what [os.getenv] returns: [None] and the empty string are
    false. *)
Definition truthy (v : option string) : bool :=
  match v with
  | Some (String _ _) => true
  | _ => false
  end.

Definition required_variables : list string :=
  ["KAFKA_BOOTSTRAP_SERVERS"; "KAFKA_USERNAME"; "KAFKA_PASSWORD";
   "KAFKA_INPUT_TOPIC"; "KAFKA_OUTPUT_TOPIC"; "GROQ_API_KEY"].

(** Lines 13-21: the six reads and the [if not all([...]): raise]. *)
Definition check_environment (env : environ) : PyExn + unit :=
  let KAFKA_BOOTSTRAP_SERVERS := os_getenv env "KAFKA_BOOTSTRAP_SERVERS" in
  let KAFKA_USERNAME := os_getenv env "KAFKA_USERNAME" in
  let KAFKA_PASSWORD := os_getenv env "KAFKA_PASSWORD" in
  let KAFKA_INPUT_TOPIC := os_getenv env "KAFKA_INPUT_TOPIC" in
  let KAFKA_OUTPUT_TOPIC := os_getenv env "KAFKA_OUTPUT_TOPIC" in
  let GROQ_API_KEY := os_getenv env "GROQ_API_KEY" in
  if negb (forallb truthy
             [KAFKA_BOOTSTRAP_SERVERS; KAFKA_USERNAME; KAFKA_PASSWORD;
              KAFKA_INPUT_TOPIC; KAFKA_OUTPUT_TOPIC; GROQ_API_KEY])
  then inl (Exception "❌ Missing one or more required environment variables.")
  else inr tt.

(** ** More views of the events *)

(** The lines printed, in order. *)
Fixpoint prints_of (evs : list Event) : list string :=
  match evs with
  | [] => []
  | EvPrint line :: evs' => line :: prints_of evs'
  | _ :: evs' => prints_of evs'
  end.

(** The sleeps, in order, in milliseconds. *)
Fixpoint sleeps_of (evs : list Event) : list Z :=
  match evs with
  | [] => []
  | EvSleep ms :: evs' => ms :: sleeps_of evs'
  | _ :: evs' => sleeps_of evs'
  end.

(** A model call or a printed line. *)
Definition call_or_print (ev : Event) : bool :=
  match ev with
  | EvInvoke _ _ | EvPrint _ => true
  | _ => false
  end.

Definition is_fallback_call (call : Backend * string) : bool :=
  Backend_eqb (fst call) groq_fallback_llm.

(** A producer whose queue is full, and one whose flush fails. *)
Definition full_queue_exn : PyExn := Exception "Local: Queue full".
Definition broker_down_exn : PyExn := Exception "Local: All broker connections are down".

Definition failing_produce (topic : string) (payload : pyval)
    (script : list Outcome) : option PyExn * list Outcome :=
  (Some full_queue_exn, script).

Definition failing_flush (script : list Outcome) : option PyExn * list Outcome :=
  (Some broker_down_exn, script).

(** ** Computations *)

Section Worker.

(** Everything outside the process: the Groq service and the Kafka
    brokers. *)
Variable World : Type.

(** [llm.invoke(prompt).content] for the handle [b]. *)
Variable llm_invoke : Backend -> string -> World -> Outcome * World.

(** [producer.produce(topic, value)] and [producer.flush()]: either may
    raise. *)
Variable producer_produce : string -> pyval -> World -> option PyExn * World.
Variable producer_flush : World -> option PyExn * World.

(** The environment variable of that name. *)
Variable KAFKA_OUTPUT_TOPIC : string.

Record Run (A : Type) : Type := mkRun {
  value : PyExn + A;
  world_after : World;
  events : list Event
}.
Arguments mkRun {A} _ _ _.
Arguments value {A} _.
Arguments world_after {A} _.
Arguments events {A} _.

Definition M (A : Type) : Type := World -> Run A.

Definition ret {A : Type} (a : A) : M A :=
  fun w => mkRun (inr a) w [].

Definition raise {A : Type} (e : PyExn) : M A :=
  fun w => mkRun (inl e) w [].

Definition bind {A B : Type} (m : M A) (k : A -> M B) : M B :=
  fun w =>
    match m w with
    | mkRun (inl e) w1 evs => mkRun (inl e) w1 evs
    | mkRun (inr a) w1 evs =>
        match k a w1 with
        | mkRun v w2 evs' => mkRun v w2 (evs ++ evs')
        end
    end.

(** [try: m  except Exception as e: handler e] *)
Definition try_except {A : Type} (m : M A) (handler : PyExn -> M A) : M A :=
  fun w =>
    match m w with
    | mkRun (inr a) w1 evs => mkRun (inr a) w1 evs
    | mkRun (inl e) w1 evs =>
        match handler e w1 with
        | mkRun v w2 evs' => mkRun v w2 (evs ++ evs')
        end
    end.

Notation "x <- m ;; k" := (bind m (fun x => k))
  (at level 61, m at next level, right associativity).
Notation "m ;;; k" := (bind m (fun _ => k))
  (at level 61, right associativity).

Definition emit (ev : Event) : M unit :=
  fun w => mkRun (inr tt) w [ev].

Definition print (line : string) : M unit := emit (EvPrint line).

(** [llm.invoke(prompt).content.strip()] *)
Definition invoke_content_strip (b : Backend) (prompt : string) : M string :=
  fun w =>
    let (o, w') := llm_invoke b prompt w in
    match o with
    | Content text => mkRun (inr (strip text)) w' [EvInvoke b prompt]
    | Raise e => mkRun (inl e) w' [EvInvoke b prompt]
    end.

Definition produce (topic : string) (payload : pyval) : M unit :=
  fun w =>
    let (o, w') := producer_produce topic payload w in
    match o with
    | None => mkRun (inr tt) w' [EvProduce topic payload]
    | Some e => mkRun (inl e) w' [EvProduce topic payload]
    end.

Definition flush : M unit :=
  fun w =>
    let (o, w') := producer_flush w in
    match o with
    | None => mkRun (inr tt) w' [EvFlush]
    | Some e => mkRun (inl e) w' [EvFlush]
    end.

(** [payload.get(key, default)] *)
Definition py_get (payload : pyval) (key : string) (default : pyval) : M pyval :=
  match payload with
  | PyDict d =>
      ret (match dict_get key d with Some v => v | None => default end)
  | _ => raise (AttributeError payload "get")
  end.

(** [v.strip()] *)
Definition py_strip (v : pyval) : M string :=
  match v with
  | PyStr s => ret (strip s)
  | _ => raise (AttributeError v "strip")
  end.

(** [payload[key] = v]; the computation returns the updated object. *)
Definition py_setitem (payload : pyval) (key : string) (v : pyval) : M pyval :=
  match payload with
  | PyDict d => ret (PyDict (dict_set key v d))
  | _ => raise (TypeError_setitem payload)
  end.

(** ** The core function (lines 100-138)

    The first [try] either binds [sentiment] or returns from the function:
    [inl] carries the dict of the early [return]. *)
Definition classify_and_generate (notes : string) : M dict :=
  classified <-
    try_except
      (sentiment <- invoke_content_strip groq_primary_llm (sentiment_prompt notes) ;;
       ret (inr sentiment))
      (fun e =>
         print ("⚠️ Primary sentiment LLM failed: " ++ str_exn e ++ nl
                ++ "🔁 Using fallback.") ;;;
         try_except
           (sentiment <- invoke_content_strip groq_fallback_llm (sentiment_prompt notes) ;;
            ret (inr sentiment))
           (fun e2 =>
              ret (inl (enrichment_result notes "Unknown"
                          ("❌ Both LLMs failed for sentiment: " ++ str_exn e2)
                          "❌ Skipped due to classification error")))) ;;
  match classified with
  | inl returned => ret returned
  | inr sentiment =>
      if negative_gate sentiment then
        ret (enrichment_result notes sentiment
               "Negative sentiment detected"
               "❌ No action recommended due to negative sentiment.")
      else
        let prompt := action_prompt notes sentiment in
        action_items <-
          try_except
            (invoke_content_strip groq_primary_llm prompt)
            (fun e =>
               print ("⚠️ Primary action LLM failed: " ++ str_exn e ++ nl
                      ++ "🔁 Using fallback.") ;;;
               try_except
                 (invoke_content_strip groq_fallback_llm prompt)
                 (fun e2 =>
                    ret ("❌ Both LLMs failed for action generation: " ++ str_exn e2))) ;;
        ret (enrichment_result notes sentiment
               "Sentiment identified via Groq LLM"
               action_items)
  end.

(** ** The Kafka loop (lines 143-170) *)

(** The [try] block of one iteration, for a message that has a value. *)
Definition process_message (decoded : PyExn + pyval) : M Flow :=
  payload <- (match decoded with inl e => raise e | inr v => ret v end) ;;
  comments <- py_get payload "comments" (PyStr "") ;;
  notes <- py_strip comments ;;
  if String.eqb notes "" then
    print "⚠️ Skipping empty comment field" ;;;
    ret FlowContinue
  else
    result <- classify_and_generate notes ;;
    payload' <- py_setitem payload "result" (PyDict result) ;;
    produce KAFKA_OUTPUT_TOPIC payload' ;;;
    flush ;;;
    print ("✅ Published enriched message to " ++ KAFKA_OUTPUT_TOPIC) ;;;
    ret FlowNext.

(** One pass through the body of [while True]. *)
Definition loop_iteration (msg : Polled) : M unit :=
  match msg with
  | PollNone => ret tt
  | PollError err => print ("⚠️ Kafka error: " ++ err)
  | PollValue decoded =>
      flow <-
        try_except
          (process_message decoded)
          (fun e =>
             print ("[PROCESSING ERROR] " ++ str_exn e) ;;;
             emit (EvTraceback e) ;;;
             ret FlowNext) ;;
      match flow with
      | FlowContinue => ret tt
      | FlowNext => emit (EvSleep 250)
      end
  end.

(** The loop over what successive polls return. *)
Fixpoint kafka_loop (polls : list Polled) : M unit :=
  match polls with
  | [] => ret tt
  | msg :: rest => loop_iteration msg ;;; kafka_loop rest
  end.

(** ** The failover chain, as a specification

    One prompt through the chain of section 4.1: the primary once; if it
    raised, the fallback once; the outcome is the first success, or the
    last error. *)
Definition chain_outcome (prompt : string) (w : World) : Outcome * World :=
  match llm_invoke groq_primary_llm prompt w with
  | (Content text, w1) => (Content text, w1)
  | (Raise _, w1) => llm_invoke groq_fallback_llm prompt w1
  end.

(** The calls the chain makes for one prompt. *)
Definition chain_calls (prompt : string) (w : World) : list (Backend * string) :=
  match llm_invoke groq_primary_llm prompt w with
  | (Content _, _) => [(groq_primary_llm, prompt)]
  | (Raise _, _) => [(groq_primary_llm, prompt); (groq_fallback_llm, prompt)]
  end.

(** ** Strings, dicts and event lists *)

Lemma lower_app (a b : string) : lower (a ++ b) = lower a ++ lower b.
Proof.
  induction a as [|c a IH]; simpl; [reflexivity | now rewrite IH].
Qed.

Lemma prefix_app (p r : string) : prefix p (p ++ r) = true.
Proof.
  induction p as [|c p IH]; simpl; [now destruct r|].
  destruct (ascii_dec c c) as [_|N]; [exact IH | now contradiction N].
Qed.

Lemma prefix_lower_split (p : string) :
  forall s, prefix p (lower s) = true ->
            exists head rest, s = head ++ rest /\ lower head = p.
Proof.
  induction p as [|a p IH]; intros s H.
  - exists "", s. now split.
  - destruct s as [|c s]; simpl in H; [discriminate|].
    destruct (ascii_dec a (lower_char c)) as [E|_]; [|discriminate].
    destruct (IH _ H) as (head & rest & -> & Hl).
    exists (String c head), rest. simpl. split; [reflexivity|].
    now rewrite Hl, E.
Qed.

(** [strip] removes whitespace from both ends, and nothing else. *)

(** Induction along the way [lstrip] reads a string. *)
Lemma lstrip_cases (P : string -> Prop) :
  (forall a s, space1 a = true -> P s -> P (String a s)) ->
  (forall a b s, space1 a = false -> space2 a b = true -> P s ->
                 P (String a (String b s))) ->
  (forall a b c s, space1 a = false -> space2 a b = false ->
                   space3 a b c = true -> P s ->
                   P (String a (String b (String c s)))) ->
  (forall s, lstrip s = s -> P s) ->
  forall s, P s.
Proof.
  intros H1 H2 H3 Hn.
  assert (G : forall n s, String.length s <= n -> P s).
  { induction n as [|n IH]; intros s L.
    - destruct s; [now apply Hn | simpl in L; lia].
    - destruct s as [|a s1]; [now apply Hn|]. simpl in L.
      destruct (space1 a) eqn:S1; [apply H1; [exact S1 | apply IH; lia]|].
      destruct s1 as [|b s2]; [apply Hn; cbn [lstrip]; now rewrite S1|].
      simpl in L.
      destruct (space2 a b) eqn:S2; [apply H2; trivial; apply IH; lia|].
      destruct s2 as [|c s3]; [apply Hn; cbn [lstrip]; now rewrite S1, S2|].
      simpl in L.
      destruct (space3 a b c) eqn:S3; [apply H3; trivial; apply IH; lia|].
      apply Hn. cbn [lstrip]. now rewrite S1, S2, S3. }
  intros s. now apply (G (String.length s)).
Qed.

Ltac lstrip_step :=
  cbn [lstrip append];
  repeat match goal with
    | H : space1 _ = _ |- _ => rewrite H
    | H : space2 _ _ = _ |- _ => rewrite H
    | H : space3 _ _ _ = _ |- _ => rewrite H
    end.

Lemma lstrip_length (s : string) :
  String.length (lstrip s) <= String.length s.
Proof.
  induction s using lstrip_cases; lstrip_step; simpl; try lia.
  rewrite H. lia.
Qed.

Lemma lstrip_idempotent (s : string) : lstrip (lstrip s) = lstrip s.
Proof.
  induction s using lstrip_cases; lstrip_step; trivial.
  now rewrite !H.
Qed.

Lemma lstrip_decompose (s : string) :
  exists l, s = l ++ lstrip s /\ all_space l = true.
Proof.
  unfold all_space.
  induction s as [a s S1 (l & E & A)|a b s S1 S2 (l & E & A)
                 |a b c s S1 S2 S3 (l & E & A)|s F] using lstrip_cases.
  - exists (String a l). lstrip_step. split; [now rewrite E at 1 | exact A].
  - exists (String a (String b l)). lstrip_step.
    split; [now rewrite E at 1 | exact A].
  - exists (String a (String b (String c l))). lstrip_step.
    split; [now rewrite E at 1 | exact A].
  - exists "". now rewrite F.
Qed.

(** Whitespace in front of any text is read the same way. *)
Lemma lstrip_app_all_space (a b : string) :
  all_space a = true -> lstrip (a ++ b) = lstrip b.
Proof.
  unfold all_space.
  induction a as [x s S1 IH|x y s S1 S2 IH|x y z s S1 S2 S3 IH|s F]
    using lstrip_cases; lstrip_step; trivial.
  rewrite F. destruct s; [reflexivity | discriminate].
Qed.

Lemma all_space_app (a b : string) :
  all_space a = true -> all_space b = true -> all_space (a ++ b) = true.
Proof.
  intros A B. unfold all_space. rewrite (lstrip_app_all_space a b A). exact B.
Qed.

Lemma rstrip_decompose (s : string) :
  exists r, s = rstrip s ++ r /\ all_space r = true.
Proof.
  induction s as [|c s (r & E & A)]; [now exists ""|].
  cbn [rstrip]. destruct (all_space (String c s)) eqn:W.
  - now exists (String c s).
  - exists r. cbn [append]. split; [now rewrite E at 1 | exact A].
Qed.

Lemma rstrip_idempotent (s : string) : rstrip (rstrip s) = rstrip s.
Proof.
  induction s as [|c s IH]; [reflexivity|].
  cbn [rstrip]. destruct (all_space (String c s)) eqn:W; [reflexivity|].
  cbn [rstrip]. destruct (all_space (String c (rstrip s))) eqn:W'.
  - exfalso. destruct (rstrip_decompose s) as (r & E & A).
    pose proof (all_space_app _ _ W' A) as C. cbn [append] in C.
    rewrite <- E in C. congruence.
  - now rewrite IH.
Qed.

(** Text that does not start with whitespace keeps that property when cut
    short. *)
Lemma lstrip_fixed_prefix (p r : string) :
  lstrip (p ++ r) = p ++ r -> lstrip p = p.
Proof.
  intros F.
  destruct p as [|a [|b [|c p]]]; trivial; cbn [lstrip append] in *.
  - destruct (space1 a) eqn:S1; trivial. exfalso.
    pose proof (lstrip_length r) as B.
    apply (f_equal String.length) in F. simpl in F. lia.
  - destruct (space1 a) eqn:S1.
    + exfalso. pose proof (lstrip_length (String b r)) as B.
      apply (f_equal String.length) in F. simpl in *. lia.
    + destruct (space2 a b) eqn:S2; trivial. exfalso.
      pose proof (lstrip_length r) as B.
      apply (f_equal String.length) in F. simpl in *. lia.
  - destruct (space1 a) eqn:S1.
    + exfalso. pose proof (lstrip_length (String b (String c (p ++ r)))) as B.
      apply (f_equal String.length) in F. simpl in *. lia.
    + destruct (space2 a b) eqn:S2.
      * exfalso. pose proof (lstrip_length (String c (p ++ r))) as B.
        apply (f_equal String.length) in F. simpl in *. lia.
      * destruct (space3 a b c) eqn:S3; trivial. exfalso.
        pose proof (lstrip_length (p ++ r)) as B.
        pose proof (lstrip_length p) as B'.
        apply (f_equal String.length) in F. simpl in *. lia.
Qed.

Lemma lstrip_rstrip_fixed (s : string) :
  lstrip s = s -> lstrip (rstrip s) = rstrip s.
Proof.
  intros F. destruct (rstrip_decompose s) as (r & E & _).
  rewrite E in F. now apply lstrip_fixed_prefix in F.
Qed.

Lemma strip_is_trimmed (s : string) :
  lstrip (strip s) = strip s /\ rstrip (strip s) = strip s.
Proof.
  unfold strip. split.
  - apply lstrip_rstrip_fixed, lstrip_idempotent.
  - apply rstrip_idempotent.
Qed.

Lemma strip_decompose (s : string) :
  exists l r, s = l ++ strip s ++ r /\ all_space l = true /\ all_space r = true.
Proof.
  destruct (lstrip_decompose s) as (l & El & Al).
  destruct (rstrip_decompose (lstrip s)) as (r & Er & Ar).
  exists l, r. unfold strip. now rewrite <- Er, <- El.
Qed.

(** [rstrip] removes the longest suffix made of whitespace. *)
Lemma rstrip_longest (p r : string) :
  all_space r = true -> String.length (rstrip (p ++ r)) <= String.length p.
Proof.
  intros A. induction p as [|c p IH].
  - cbn [append]. destruct r as [|c r]; [simpl; lia|].
    cbn [rstrip]. rewrite A. simpl. lia.
  - cbn [append rstrip]. destruct (all_space (String c (p ++ r))); simpl; lia.
Qed.

Lemma check_step_iter (p : positive) :
  fst (Pos.iter check_step (0%N, true) p) = Npos p
  /\ (snd (Pos.iter check_step (0%N, true) p) = true ->
      forall cp, (cp < Npos p)%N -> agree cp = true).
Proof.
  induction p as [|p (F & S)] using Pos.peano_ind.
  - split; [reflexivity|]. cbn [Pos.iter]. unfold check_step.
    cbn [fst snd andb]. intros H cp L.
    assert (cp = 0%N) as -> by lia. exact H.
  - rewrite Pos.iter_succ. unfold check_step at 1. cbn [fst snd]. rewrite F.
    split; [lia|].
    intros H cp L. apply andb_prop in H. destruct H as (H1 & H2).
    rewrite F in H2.
    destruct (N.eq_dec cp (Npos p)) as [->|N]; [exact H2|].
    apply (S H1). lia.
Qed.

Lemma lstrip_four_byte_lead (a : ascii) (s : string) :
  (0xF0 <= code a)%N -> lstrip (String a s) = String a s.
Proof.
  intros L.
  assert (S1 : space1 a = false)
    by (unfold space1; destruct (N.ltb_spec (code a) 0x80); [lia | reflexivity]).
  assert (S2 : forall b, space2 a b = false)
    by (intros b; unfold space2;
        destruct (N.leb_spec (code a) 0xDF); [lia|];
        now rewrite andb_false_r).
  assert (S3 : forall b c, space3 a b c = false)
    by (intros b c; unfold space3; cbv zeta;
        destruct (N.leb_spec (code a) 0xEF); [lia|];
        now rewrite andb_false_r).
  cbn [lstrip]. rewrite S1. destruct s as [|b [|c s]]; trivial.
  - now rewrite S2.
  - now rewrite S2, S3.
Qed.

(** The encodings [strip] takes as whitespace are exactly those of the code
    points of [isspace]. *)
Lemma whitespace_table (cp : N) :
  (cp < 0x110000)%N -> all_space (utf8 cp) = isspace cp.
Proof.
  intros B. destruct (N.lt_ge_cases cp 0x10000) as [L|G].
  - assert (C : Pos.iter check_step (0%N, true) 0x10000 = (0x10000%N, true))
      by (vm_compute; reflexivity).
    destruct (check_step_iter 0x10000) as (_ & S). rewrite C in S.
    specialize (S eq_refl cp L). unfold agree in S.
    now apply Bool.eqb_prop in S.
  - assert (I : isspace cp = false).
    { unfold isspace.
      repeat match goal with
        | |- context [(?x <=? ?y)%N] => destruct (N.leb_spec x y); try lia
        | |- context [(?x =? ?y)%N] => destruct (N.eqb_spec x y); try lia
        end; reflexivity. }
    rewrite I. unfold utf8. cbv zeta.
    destruct (N.ltb_spec cp 0x80); [lia|].
    destruct (N.ltb_spec cp 0x800); [lia|].
    destruct (N.ltb_spec cp 0x10000); [lia|].
    cbn [append]. unfold all_space. rewrite lstrip_four_byte_lead; [reflexivity|].
    assert (Q : (cp / 262144 < 5)%N)
      by (apply N.Div0.div_lt_upper_bound; lia).
    revert Q. generalize (cp / 262144)%N as q. intros q Q.
    unfold code. rewrite N_ascii_embedding; lia.
Qed.

Lemma code_ascii_of_N (n : N) : (n < 256)%N -> code (ascii_of_N n) = n.
Proof. apply N_ascii_embedding. Qed.

Lemma continuation_byte (x : N) :
  continuation (ascii_of_N (0x80 + x mod 64)) = true.
Proof.
  assert (B : (x mod 64 < 64)%N) by (apply N.mod_lt; lia).
  revert B. generalize (x mod 64)%N as y. intros y B.
  unfold continuation. rewrite code_ascii_of_N by lia.
  destruct (N.leb_spec 0x80 (0x80 + y)); [|lia].
  destruct (N.leb_spec (0x80 + y) 0xBF); [reflexivity | lia].
Qed.

(** A continuation byte never starts a whitespace character. *)
Lemma lstrip_continuation (c : ascii) (s : string) :
  continuation c = true -> lstrip (String c s) = String c s.
Proof.
  unfold continuation. intros C. apply andb_prop in C. destruct C as (C1 & C2).
  apply N.leb_le in C1, C2.
  assert (S1 : space1 c = false)
    by (unfold space1; destruct (N.ltb_spec (code c) 0x80); [lia | reflexivity]).
  assert (S2 : forall b, space2 c b = false)
    by (intros b; unfold space2;
        destruct (N.leb_spec 0xC2 (code c)); [lia | reflexivity]).
  assert (S3 : forall b d, space3 c b d = false)
    by (intros b d; unfold space3; cbv zeta;
        destruct (N.leb_spec 0xE0 (code c)); [lia | reflexivity]).
  cbn [lstrip]. rewrite S1. destruct s as [|b [|d s]]; trivial.
  - now rewrite S2.
  - now rewrite S2, S3.
Qed.

Ltac utf8_range :=
  unfold utf8; cbv beta zeta;
  repeat match goal with
    | |- context [(?x <? ?y)%N] => destruct (N.ltb_spec x y); try lia
    end;
  cbn [append]; reflexivity.

Ltac lead_byte q bound :=
  let Q := fresh "Q" in
  assert (Q : (q < bound)%N) by (apply N.Div0.div_lt_upper_bound; lia);
  revert Q; generalize q; intros ? Q;
  rewrite code_ascii_of_N; lia.

Lemma utf8_has_shape (cp : N) : (cp < 0x110000)%N -> utf8_shape cp.
Proof.
  intros B.
  destruct (N.lt_ge_cases cp 0x80);
    [|destruct (N.lt_ge_cases cp 0x800); [|destruct (N.lt_ge_cases cp 0x10000)]].
  - eapply shape1; [utf8_range|]. rewrite code_ascii_of_N; lia.
  - eapply shape2; [utf8_range | | apply continuation_byte].
    lead_byte (cp / 64)%N 32%N.
  - eapply shape3;
      [utf8_range | | apply continuation_byte | apply continuation_byte].
    lead_byte (cp / 4096)%N 16%N.
  - eapply shape4;
      [utf8_range | | apply continuation_byte | apply continuation_byte
       | apply continuation_byte].
    lead_byte (cp / 262144)%N 5%N.
Qed.

Lemma space1_high (a : ascii) : (0x80 <= code a)%N -> space1 a = false.
Proof.
  intros L. unfold space1. destruct (N.ltb_spec (code a) 0x80); [lia | reflexivity].
Qed.

Lemma space2_out (a b : ascii) :
  (code a < 0xC2 \/ 0xDF < code a)%N -> space2 a b = false.
Proof.
  intros L. unfold space2.
  destruct (N.leb_spec 0xC2 (code a)); [|reflexivity].
  destruct (N.leb_spec (code a) 0xDF); [lia | reflexivity].
Qed.

Lemma space3_out (a b c : ascii) :
  (code a < 0xE0 \/ 0xEF < code a)%N -> space3 a b c = false.
Proof.
  intros L. unfold space3. cbv zeta.
  destruct (N.leb_spec 0xE0 (code a)); [|reflexivity].
  destruct (N.leb_spec (code a) 0xEF); [lia | reflexivity].
Qed.

(** One character in front of any text: [lstrip] drops it exactly when it
    is whitespace. *)
Lemma lstrip_utf8 (cp : N) (s : string) :
  (cp < 0x110000)%N ->
  lstrip (utf8 cp ++ s) = if isspace cp then lstrip s else utf8 cp ++ s.
Proof.
  intros B. rewrite <- (whitespace_table cp B).
  destruct (all_space (utf8 cp)) eqn:A; [now apply lstrip_app_all_space|].
  revert A. unfold all_space.
  destruct (utf8_has_shape cp B) as [a E La|a b E La Cb|a b c E La Cb Cc
                                    |a b c d E La Cb Cc Cd]; rewrite E.
  - cbn [lstrip append]. destruct (space1 a); [discriminate|]. intros _.
    destruct s as [|x [|y s]]; trivial.
    + now rewrite space2_out by lia.
    + now rewrite space2_out, space3_out by lia.
  - cbn [lstrip append]. rewrite space1_high by lia.
    destruct (space2 a b); [discriminate|]. intros _.
    destruct s as [|x s]; trivial. now rewrite space3_out by lia.
  - cbn [lstrip append]. rewrite space1_high, space2_out by lia.
    destruct (space3 a b c); [discriminate|]. reflexivity.
  - intros _. cbn [append]. now apply lstrip_four_byte_lead.
Qed.

Lemma utf8_not_empty (cp : N) (s : string) :
  (cp < 0x110000)%N -> utf8 cp ++ s <> "".
Proof.
  intros B. destruct (utf8_has_shape cp B) as [? E|? ? E|? ? ? E|? ? ? ? E];
    rewrite E; discriminate.
Qed.

Lemma lstrip_encode (cps : list N) :
  Forall (fun cp => cp < 0x110000)%N cps ->
  lstrip (encode cps) = encode (lstrip_code_points cps).
Proof.
  induction 1 as [|cp cps B F IH]; [reflexivity|].
  cbn [encode lstrip_code_points]. rewrite lstrip_utf8 by exact B.
  now destruct (isspace cp).
Qed.

Lemma all_space_encode (cps : list N) :
  Forall (fun cp => cp < 0x110000)%N cps ->
  all_space (encode cps) = forallb isspace cps.
Proof.
  induction 1 as [|cp cps B F IH]; [reflexivity|].
  unfold all_space in *. cbn [encode forallb]. rewrite lstrip_utf8 by exact B.
  destruct (isspace cp); [exact IH|]. cbn [andb].
  pose proof (utf8_not_empty cp (encode cps) B) as N.
  now destruct (utf8 cp ++ encode cps).
Qed.

(** One character in front of any text: [rstrip] keeps it unless the whole
    text is whitespace. *)
Lemma rstrip_utf8 (cp : N) (s : string) :
  (cp < 0x110000)%N ->
  rstrip (utf8 cp ++ s)
  = if all_space (utf8 cp ++ s) then "" else utf8 cp ++ rstrip s.
Proof.
  intros B.
  assert (K : forall c t, continuation c = true -> all_space (String c t) = false)
    by (intros c t C; unfold all_space; now rewrite lstrip_continuation).
  destruct (utf8_has_shape cp B) as [a E La|a b E La Cb|a b c E La Cb Cc
                                    |a b c d E La Cb Cc Cd]; rewrite E;
    cbn [append rstrip];
    match goal with |- context [all_space ?x] => destruct (all_space x) end;
    trivial; now rewrite ?K.
Qed.

Lemma forallb_rev {A : Type} (f : A -> bool) (l : list A) :
  forallb f (rev l) = forallb f l.
Proof.
  induction l as [|x l IH]; [reflexivity|].
  cbn [rev forallb]. rewrite forallb_app, IH. cbn [forallb].
  rewrite andb_true_r. apply andb_comm.
Qed.

Lemma lstrip_code_points_app (a b : list N) :
  lstrip_code_points (a ++ b)
  = if forallb isspace a then lstrip_code_points b
    else (lstrip_code_points a ++ b)%list.
Proof.
  induction a as [|x a IH]; [reflexivity|].
  cbn [app lstrip_code_points forallb]. destruct (isspace x); [apply IH|].
  reflexivity.
Qed.

Lemma lstrip_code_points_all (l : list N) :
  forallb isspace l = true -> lstrip_code_points l = [].
Proof.
  induction l as [|x l IH]; [reflexivity|]. cbn [forallb lstrip_code_points].
  destruct (isspace x); [exact IH | discriminate].
Qed.

Lemma lstrip_code_points_bounded (l : list N) :
  Forall (fun cp => cp < 0x110000)%N l ->
  Forall (fun cp => cp < 0x110000)%N (lstrip_code_points l).
Proof.
  induction 1 as [|cp cps B F IH]; [constructor|].
  cbn [lstrip_code_points]. destruct (isspace cp); [exact IH|].
  now constructor.
Qed.

Lemma rstrip_encode (cps : list N) :
  Forall (fun cp => cp < 0x110000)%N cps ->
  rstrip (encode cps) = encode (rev (lstrip_code_points (rev cps))).
Proof.
  induction 1 as [|cp cps B F IH]; [reflexivity|].
  cbn [encode]. rewrite rstrip_utf8 by exact B.
  change (utf8 cp ++ encode cps) with (encode (cp :: cps)).
  rewrite all_space_encode by (constructor; trivial). rewrite IH.
  clear IH F B. cbn [forallb rev].
  rewrite lstrip_code_points_app, forallb_rev.
  destruct (forallb isspace cps) eqn:A.
  - rewrite (lstrip_code_points_all (rev cps)) by now rewrite forallb_rev.
    cbn [lstrip_code_points]. now destruct (isspace cp).
  - rewrite andb_false_r, rev_app_distr. reflexivity.
Qed.

(** [strip] on the encoding of a text is the encoding of the text with the
    whitespace code points at both ends removed. *)
Lemma strip_encode (cps : list N) :
  Forall (fun cp => cp < 0x110000)%N cps ->
  strip (encode cps) = encode (strip_code_points cps).
Proof.
  intros F. unfold strip, strip_code_points.
  rewrite lstrip_encode by exact F.
  apply rstrip_encode, lstrip_code_points_bounded, F.
Qed.

(** The gate of the code is "starts with negative, ignoring case". *)
Lemma negative_gate_iff (s : string) :
  negative_gate s = true <-> starts_with_ignoring_case s "negative".
Proof.
  unfold negative_gate, startswith, starts_with_ignoring_case. split.
  - intros H. apply prefix_lower_split in H. exact H.
  - intros (head & rest & -> & Hl). rewrite lower_app, Hl.
    change (lower "negative") with "negative". apply prefix_app.
Qed.

Lemma negative_gate_false (s : string) :
  ~ starts_with_ignoring_case s "negative" -> negative_gate s = false.
Proof.
  intros N. destruct (negative_gate s) eqn:G; [|reflexivity].
  now apply negative_gate_iff in G.
Qed.

Lemma prompts_differ (n n' sentiment : string) :
  sentiment_prompt n <> action_prompt n' sentiment.
Proof.
  unfold sentiment_prompt, action_prompt, nl. simpl. discriminate.
Qed.

Lemma dict_get_set_same (k : string) (v : pyval) (d : dict) :
  dict_get k (dict_set k v d) = Some v.
Proof.
  induction d as [|[k' v'] d IH]; simpl.
  - now rewrite String.eqb_refl.
  - destruct (String.eqb k k') eqn:E; simpl.
    + now rewrite String.eqb_refl.
    + now rewrite E.
Qed.

Lemma dict_get_set_other (k k' : string) (v : pyval) (d : dict) :
  k' <> k -> dict_get k' (dict_set k v d) = dict_get k' d.
Proof.
  intros N. induction d as [|[k0 v0] d IH]; simpl.
  - destruct (String.eqb_spec k' k); [contradiction | reflexivity].
  - destruct (String.eqb_spec k k0) as [->|Nk]; simpl.
    + destruct (String.eqb_spec k' k0); [contradiction | reflexivity].
    + destruct (String.eqb_spec k' k0); [reflexivity | exact IH].
Qed.

Lemma calls_of_app (a b : list Event) :
  calls_of (a ++ b)%list = (calls_of a ++ calls_of b)%list.
Proof.
  induction a as [|[] a IH]; simpl; now rewrite ?IH.
Qed.

Lemma produced_of_app (a b : list Event) :
  produced_of (a ++ b)%list = (produced_of a ++ produced_of b)%list.
Proof.
  induction a as [|[] a IH]; simpl; now rewrite ?IH.
Qed.

(** ** Running the engine *)

(** Reduces the monad and the event lists, and leaves prompts, strings and
    the gate folded. *)
Ltac engine_red :=
  cbv beta iota zeta delta
    [bind try_except invoke_content_strip print emit ret
       value world_after events app calls_of produced_of fst snd].

(** Case analysis on the next model call, in program order; a call whose
    outcome is a hypothesis is rewritten with it. *)
Ltac step_llm :=
  match goal with
  | H : llm_invoke ?b ?p ?w = _ |- context [llm_invoke ?b ?p ?w] =>
      rewrite H; engine_red
  | |- context [llm_invoke ?b ?p ?w] =>
      let E := fresh "E" in
      destruct (llm_invoke b p w) as [[?text|?e] ?w'] eqn:E;
      rewrite ?E in *; engine_red
  end.

Ltac run_engine := unfold classify_and_generate; engine_red; repeat step_llm.

Lemma engine_unknown notes w e1 w1 e2 w2 :
  llm_invoke groq_primary_llm (sentiment_prompt notes) w = (Raise e1, w1) ->
  llm_invoke groq_fallback_llm (sentiment_prompt notes) w1 = (Raise e2, w2) ->
  classify_and_generate notes w =
  mkRun
    (inr (enrichment_result notes "Unknown"
            ("❌ Both LLMs failed for sentiment: " ++ str_exn e2)
            "❌ Skipped due to classification error"))
    w2
    [ EvInvoke groq_primary_llm (sentiment_prompt notes);
      EvPrint ("⚠️ Primary sentiment LLM failed: " ++ str_exn e1 ++ nl
               ++ "🔁 Using fallback.");
      EvInvoke groq_fallback_llm (sentiment_prompt notes) ].
Proof.
  intros H1 H2. run_engine. reflexivity.
Qed.

Lemma engine_negative notes w text w1 :
  chain_outcome (sentiment_prompt notes) w = (Content text, w1) ->
  negative_gate (strip text) = true ->
  let r := classify_and_generate notes w in
  value r = inr (enrichment_result notes (strip text)
                   "Negative sentiment detected"
                   "❌ No action recommended due to negative sentiment.")
  /\ world_after r = w1
  /\ calls_of (events r) = chain_calls (sentiment_prompt notes) w.
Proof.
  unfold chain_outcome, chain_calls. intros H G.
  destruct (llm_invoke groq_primary_llm (sentiment_prompt notes) w)
    as [[t1|e1] w1'] eqn:E1.
  - injection H as <- <-. run_engine. rewrite G. engine_red. auto.
  - run_engine. rewrite G. engine_red. auto.
Qed.

Lemma engine_action notes w text w1 :
  chain_outcome (sentiment_prompt notes) w = (Content text, w1) ->
  negative_gate (strip text) = false ->
  let prompt := action_prompt notes (strip text) in
  let r := classify_and_generate notes w in
  value r = inr (enrichment_result notes (strip text)
                   "Sentiment identified via Groq LLM"
                   match fst (chain_outcome prompt w1) with
                   | Content actions => strip actions
                   | Raise e2 =>
                       "❌ Both LLMs failed for action generation: " ++ str_exn e2
                   end)
  /\ world_after r = snd (chain_outcome prompt w1)
  /\ calls_of (events r) =
     (chain_calls (sentiment_prompt notes) w ++ chain_calls prompt w1)%list.
Proof.
  unfold chain_outcome, chain_calls. intros H G.
  destruct (llm_invoke groq_primary_llm (sentiment_prompt notes) w)
    as [[t1|e1] w1'] eqn:E1.
  - injection H as <- <-.
    run_engine; rewrite G; engine_red; repeat step_llm; auto.
  - run_engine; rewrite G; engine_red; repeat step_llm; auto.
Qed.

Lemma engine_returns notes w :
  exists label reason actions,
    value (classify_and_generate notes w)
    = inr (enrichment_result notes label reason actions)
    /\ produced_of (events (classify_and_generate notes w)) = [].
Proof.
  run_engine;
    try (destruct (negative_gate (strip text)); engine_red; repeat step_llm);
    eauto.
Qed.

Lemma enrichment_result_well_formed notes label reason actions :
  well_formed_result (enrichment_result notes label reason actions).
Proof.
  split; [reflexivity|].
  intros k [<-|[<-|[<-|[<-|[]]]]]; simpl; eauto.
Qed.

(** ** Counting calls *)

Lemma chain_calls_cases prompt w :
  (exists text w1,
      llm_invoke groq_primary_llm prompt w = (Content text, w1)
      /\ chain_calls prompt w = [(groq_primary_llm, prompt)])
  \/ (exists e w1,
         llm_invoke groq_primary_llm prompt w = (Raise e, w1)
         /\ chain_calls prompt w
            = [(groq_primary_llm, prompt); (groq_fallback_llm, prompt)]).
Proof.
  unfold chain_calls.
  destruct (llm_invoke groq_primary_llm prompt w) as [[text|e] w1]; eauto.
Qed.

Lemma attempts_app b q (l1 l2 : list (Backend * string)) :
  attempts b q (l1 ++ l2)%list = attempts b q l1 + attempts b q l2.
Proof.
  unfold attempts. now rewrite filter_app, length_app.
Qed.

Lemma attempts_chain_other b q prompt w :
  q <> prompt -> attempts b q (chain_calls prompt w) = 0.
Proof.
  intros N. apply String.eqb_neq in N.
  destruct (chain_calls_cases prompt w) as [(t & w1 & _ & ->)|(e & w1 & _ & ->)];
    unfold attempts, call_eqb; simpl; rewrite N, !andb_false_r; reflexivity.
Qed.

Lemma attempts_chain_primary prompt w :
  attempts groq_primary_llm prompt (chain_calls prompt w) = 1.
Proof.
  destruct (chain_calls_cases prompt w) as [(t & w1 & _ & ->)|(e & w1 & _ & ->)];
    unfold attempts, call_eqb; simpl; rewrite String.eqb_refl; reflexivity.
Qed.

Lemma attempts_chain_fallback prompt w :
  attempts groq_fallback_llm prompt (chain_calls prompt w)
  = match fst (llm_invoke groq_primary_llm prompt w) with
    | Content _ => 0
    | Raise _ => 1
    end.
Proof.
  unfold chain_calls.
  destruct (llm_invoke groq_primary_llm prompt w) as [[t|e] w1];
    unfold attempts, call_eqb; simpl; rewrite ?String.eqb_refl; reflexivity.
Qed.

Lemma in_chain_calls b q prompt w :
  In (b, q) (chain_calls prompt w) -> q = prompt.
Proof.
  destruct (chain_calls_cases prompt w) as [(t & w1 & _ & ->)|(e & w1 & _ & ->)].
  - intros [H|[]]. now injection H.
  - intros [H|[H|[]]]; now injection H.
Qed.

Lemma fallback_in_chain_calls q prompt w :
  In (groq_fallback_llm, q) (chain_calls prompt w) ->
  chain_calls prompt w = [(groq_primary_llm, q); (groq_fallback_llm, q)].
Proof.
  destruct (chain_calls_cases prompt w) as [(t & w1 & _ & ->)|(e & w1 & _ & ->)].
  - intros [H|[]]. discriminate H.
  - intros [H|[H|[]]]; [discriminate H|]. now injection H as ->.
Qed.

(** The calls of one run: the classification chain, then, for a label that
    passes the gate, the action chain. *)
Lemma engine_calls notes w :
  let calls := calls_of (events (classify_and_generate notes w)) in
  calls = chain_calls (sentiment_prompt notes) w
  \/ exists text w1,
      chain_outcome (sentiment_prompt notes) w = (Content text, w1)
      /\ negative_gate (strip text) = false
      /\ calls = (chain_calls (sentiment_prompt notes) w
                  ++ chain_calls (action_prompt notes (strip text)) w1)%list.
Proof.
  destruct (chain_outcome (sentiment_prompt notes) w) as [[text|e2] w2] eqn:C.
  - destruct (negative_gate (strip text)) eqn:G.
    + left. now apply (engine_negative notes w text w2).
    + right. exists text, w2. repeat split; trivial.
      now apply (engine_action notes w text w2).
  - left. unfold chain_outcome in C. unfold chain_calls.
    destruct (llm_invoke groq_primary_llm (sentiment_prompt notes) w)
      as [[t1|e1] w1] eqn:E1; [discriminate|].
    now rewrite (engine_unknown notes w e1 w1 e2 w2).
Qed.

Lemma no_action_calls_in_classification b notes notes' sentiment w :
  attempts b (action_prompt notes' sentiment)
    (chain_calls (sentiment_prompt notes) w) = 0.
Proof.
  apply attempts_chain_other. intros E. symmetry in E.
  now apply prompts_differ in E.
Qed.

(** ** The engine: properties *)

(** C1. For every non-empty notes string, [classify_and_generate] does not
    raise, whatever the outcome of each model call: it returns a dict
    with exactly the four keys Caller Notes, Sentiment Label, Reason and
    Next Action Items, each holding a string. *)
Theorem classify_and_generate_never_raises notes w :
  notes <> "" ->
  exists d,
    value (classify_and_generate notes w) = inr d /\ well_formed_result d.
Proof.
  intros _.
  destruct (engine_returns notes w) as (label & reason & actions & V & _).
  eexists. split; [exact V|]. apply enrichment_result_well_formed.
Qed.




(** C5. The calls of one run of the engine.  The first call is the primary
    on the classification prompt.  For every prompt that is sent at all,
    the primary is called with it exactly once and the fallback at most
    once, and a call of the fallback comes directly after the primary's
    call with the same prompt.  When the primary answers (the
    classification prompt, or the action prompt) the fallback is not
    called with that prompt.  When the primary raises on the classification
    prompt and the fallback answers, the fallback is called once and the
    Sentiment Label is the fallback's answer, trimmed.  When the primary
    raises on the action prompt, the fallback is called once with it. *)
Theorem failover_chain_order notes w :
  let p := sentiment_prompt notes in
  let r := classify_and_generate notes w in
  let calls := calls_of (events r) in
  (exists rest, calls = (groq_primary_llm, p) :: rest)
  /\ (forall b q,
        In (b, q) calls ->
        attempts groq_primary_llm q calls = 1
        /\ attempts groq_fallback_llm q calls <= 1)
  /\ (forall q,
        In (groq_fallback_llm, q) calls ->
        exists before after,
          calls = (before ++ (groq_primary_llm, q)
                          :: (groq_fallback_llm, q) :: after)%list)
  /\ (forall text w1,
        llm_invoke groq_primary_llm p w = (Content text, w1) ->
        attempts groq_fallback_llm p calls = 0)
  /\ (forall e1 w1 text w2,
        llm_invoke groq_primary_llm p w = (Raise e1, w1) ->
        llm_invoke groq_fallback_llm p w1 = (Content text, w2) ->
        attempts groq_fallback_llm p calls = 1
        /\ exists d, value r = inr d
                     /\ dict_get "Sentiment Label" d = Some (PyStr (strip text)))
  /\ (forall text w1 actions w2,
        chain_outcome p w = (Content text, w1) ->
        llm_invoke groq_primary_llm (action_prompt notes (strip text)) w1
        = (Content actions, w2) ->
        attempts groq_fallback_llm (action_prompt notes (strip text)) calls = 0)
  /\ (forall text w1 e1 w2,
        chain_outcome p w = (Content text, w1) ->
        negative_gate (strip text) = false ->
        llm_invoke groq_primary_llm (action_prompt notes (strip text)) w1
        = (Raise e1, w2) ->
        attempts groq_fallback_llm (action_prompt notes (strip text)) calls = 1).
Proof.
  intros p r calls.
  assert (Hp : forall t, action_prompt notes t <> p)
    by (intros t E; symmetry in E; now apply prompts_differ in E).
  assert (Hfb : attempts groq_fallback_llm p calls
                = attempts groq_fallback_llm p (chain_calls p w)).
  { destruct (engine_calls notes w) as [K|(t & w1 & _ & _ & K)];
      fold r in K; fold calls in K; fold p in K; rewrite K; [reflexivity|].
    rewrite attempts_app, (attempts_chain_other _ p (action_prompt _ _)); [lia|].
    intros E. now apply (Hp (strip t)). }
  repeat split.
  - destruct (engine_calls notes w) as [K|(t & w1 & _ & _ & K)];
      fold r in K; fold calls in K; fold p in K; rewrite K;
      destruct (chain_calls_cases p w) as [(? & ? & _ & ->)|(? & ? & _ & ->)];
      simpl; eauto.
  - destruct (engine_calls notes w) as [K|(t & w1 & _ & _ & K)];
      fold r in K; fold calls in K; fold p in K; rewrite K in H |- *.
    + apply in_chain_calls in H. subst q. apply attempts_chain_primary.
    + apply in_app_or in H. rewrite attempts_app.
      destruct H as [H|H]; apply in_chain_calls in H; subst q.
      * rewrite attempts_chain_primary, attempts_chain_other; [lia|].
        intros E. now apply (Hp (strip t)).
      * rewrite attempts_chain_primary, attempts_chain_other; [lia|apply Hp].
  - destruct (engine_calls notes w) as [K|(t & w1 & _ & _ & K)];
      fold r in K; fold calls in K; fold p in K; rewrite K in H |- *.
    + apply in_chain_calls in H. subst q. rewrite attempts_chain_fallback.
      destruct (fst (llm_invoke groq_primary_llm p w)); lia.
    + apply in_app_or in H. rewrite attempts_app.
      destruct H as [H|H]; apply in_chain_calls in H; subst q.
      * rewrite attempts_chain_fallback, attempts_chain_other.
        -- destruct (fst (llm_invoke groq_primary_llm p w)); lia.
        -- intros E. now apply (Hp (strip t)).
      * rewrite attempts_chain_fallback, attempts_chain_other; [|apply Hp].
        destruct (fst (llm_invoke groq_primary_llm _ w1)); lia.
  - intros q H.
    destruct (engine_calls notes w) as [K|(t & w1 & _ & _ & K)];
      fold r in K; fold calls in K; fold p in K; rewrite K in H |- *.
    + apply fallback_in_chain_calls in H. rewrite H. now exists [], [].
    + apply in_app_or in H. destruct H as [H|H];
        apply fallback_in_chain_calls in H; rewrite H.
      * now exists [], (chain_calls (action_prompt notes (strip t)) w1).
      * exists (chain_calls p w), []. reflexivity.
  - intros text w1 E. rewrite Hfb, attempts_chain_fallback. now rewrite E.
  - rewrite Hfb, attempts_chain_fallback. now rewrite H.
  - assert (C : chain_outcome p w = (Content text, w2))
      by (unfold chain_outcome; now rewrite H).
    destruct (negative_gate (strip text)) eqn:G.
    + destruct (engine_negative notes w text w2 C G) as (V & _ & _).
      eexists. split; [exact V | reflexivity].
    + destruct (engine_action notes w text w2 C G) as (V & _ & _).
      eexists. split; [exact V | reflexivity].
  - intros text w1 actions w2 C E.
    destruct (negative_gate (strip text)) eqn:G.
    + destruct (engine_negative notes w text w1 C G) as (_ & _ & K).
      fold r in K; fold calls in K. rewrite K.
      apply no_action_calls_in_classification.
    + destruct (engine_action notes w text w1 C G) as (_ & _ & K).
      fold r in K; fold calls in K. rewrite K, attempts_app.
      rewrite no_action_calls_in_classification, attempts_chain_fallback.
      now rewrite E.
  - intros text w1 e1 w2 C G E.
    destruct (engine_action notes w text w1 C G) as (_ & _ & K).
    fold r in K; fold calls in K. rewrite K, attempts_app.
    rewrite no_action_calls_in_classification, attempts_chain_fallback.
    now rewrite E.
Qed.


(** C7. Every classified label that does not start with "negative",
    ignoring case, whatever else it is, sends the engine to the action
    stage: after the classification calls the primary is called, once,
    with the action prompt built from the notes and that label. *)
Theorem non_negative_label_reaches_action_stage notes w text w1 :
  chain_outcome (sentiment_prompt notes) w = (Content text, w1) ->
  ~ starts_with_ignoring_case (strip text) "negative" ->
  let prompt := action_prompt notes (strip text) in
  let calls := calls_of (events (classify_and_generate notes w)) in
  (exists rest,
      calls = (chain_calls (sentiment_prompt notes) w
               ++ (groq_primary_llm, prompt) :: rest)%list)
  /\ attempts groq_primary_llm prompt calls = 1.
Proof.
  intros C G prompt calls. apply negative_gate_false in G.
  destruct (engine_action notes w text w1 C G) as (_ & _ & K).
  fold prompt in K. fold calls in K. rewrite K. split.
  - destruct (chain_calls_cases prompt w1) as [(? & ? & _ & ->)|(? & ? & _ & ->)];
      eauto.
  - rewrite attempts_app, attempts_chain_primary.
    unfold prompt. now rewrite no_action_calls_in_classification.
Qed.

(** C10. Whatever the outcome (classification failed, negative label, or
    action stage), the Caller Notes of the result is the notes string the
    engine was called with. *)
Theorem caller_notes_unchanged notes w :
  exists d,
    value (classify_and_generate notes w) = inr d
    /\ dict_get "Caller Notes" d = Some (PyStr notes).
Proof.
  destruct (engine_returns notes w) as (label & reason & actions & V & _).
  eexists. split; [exact V | reflexivity].
Qed.

(** ** The loop: properties *)

(** Unfolds the loop and the monad, and leaves the engine folded. *)
Ltac unfold_loop :=
  cbv beta iota zeta delta
    [loop_iteration process_message bind try_except py_get py_strip
       py_setitem produce flush print emit ret raise
       value world_after events];
  cbn [app produced_of calls_of In].

(** What one iteration hands to the producer. *)
Lemma loop_iteration_produced msg w :
  produced_of (events (loop_iteration msg w))
  = match msg with
    | PollValue (inr (PyDict d)) =>
        match dict_get "comments" d with
        | Some (PyStr c) =>
            if String.eqb (strip c) "" then []
            else
              match value (classify_and_generate (strip c) w) with
              | inr result =>
                  [(KAFKA_OUTPUT_TOPIC,
                    PyDict (dict_set "result" (PyDict result) d))]
              | inl _ => []
              end
        | _ => []
        end
    | _ => []
    end.
Proof.
  destruct msg as [|err|[e|payload]]; try reflexivity.
  destruct payload as [| | | | |l|d]; try reflexivity.
  unfold_loop.
  destruct (dict_get "comments" d) as [[| | | |c| |]|] eqn:G;
    try reflexivity.
  unfold_loop. destruct (String.eqb (strip c) ""); [reflexivity|].
  destruct (engine_returns (strip c) w) as (label & reason & actions & V & P).
  revert V P.
  destruct (classify_and_generate (strip c) w) as [v wa evs].
  unfold_loop. intros -> P.
  destruct (producer_produce _ _ wa) as [[pe|] wp]; unfold_loop.
  - now rewrite !produced_of_app, P.
  - destruct (producer_flush wp) as [[fe|] wf]; unfold_loop;
      now rewrite !produced_of_app, P.
Qed.

(** C8. A record whose [comments] key is missing, or holds a string that
    is empty once trimmed, is skipped: the iteration only prints the
    warning, the world is untouched (no model call, nothing handed to the
    producer), and the loop goes on with the next poll. *)
Theorem blank_comments_are_skipped d rest w :
  dict_get "comments" d = None
  \/ (exists c, dict_get "comments" d = Some (PyStr c) /\ strip c = "") ->
  let msg := PollValue (inr (PyDict d)) in
  let warning := EvPrint "⚠️ Skipping empty comment field" in
  loop_iteration msg w = mkRun (inr tt) w [warning]
  /\ calls_of (events (loop_iteration msg w)) = []
  /\ produced_of (events (loop_iteration msg w)) = []
  /\ kafka_loop (msg :: rest) w
     = mkRun (value (kafka_loop rest w)) (world_after (kafka_loop rest w))
         (warning :: events (kafka_loop rest w)).
Proof.
  intros H msg warning.
  assert (L : loop_iteration msg w = mkRun (inr tt) w [warning]).
  { subst msg warning. unfold_loop.
    destruct H as [->|(c & -> & E)]; unfold_loop; [|rewrite E]; reflexivity. }
  repeat split.
  - exact L.
  - now rewrite L.
  - now rewrite L.
  - cbn [kafka_loop]. unfold bind at 1. rewrite L.
    now destruct (kafka_loop rest w).
Qed.

(** C9. Every record handed to the producer comes from a payload that is
    a dict whose [comments] is a string, not empty once trimmed; it goes
    to the output topic; and it is that dict with the engine's result
    stored under [result]: [result] holds the result and every other key
    holds what it held in the payload. *)
Theorem published_record_is_payload_plus_result msg w topic out :
  In (topic, out) (produced_of (events (loop_iteration msg w))) ->
  exists d c result,
    msg = PollValue (inr (PyDict d))
    /\ dict_get "comments" d = Some (PyStr c)
    /\ strip c <> ""
    /\ value (classify_and_generate (strip c) w) = inr result
    /\ topic = KAFKA_OUTPUT_TOPIC
    /\ out = PyDict (dict_set "result" (PyDict result) d)
    /\ dict_get "result" (dict_set "result" (PyDict result) d)
       = Some (PyDict result)
    /\ forall k, k <> "result" ->
                 dict_get k (dict_set "result" (PyDict result) d)
                 = dict_get k d.
Proof.
  rewrite loop_iteration_produced.
  destruct msg as [|err|[e|payload]]; try (intros []).
  destruct payload as [| | | | |l|d]; try (intros []).
  destruct (dict_get "comments" d) as [[| | | |c| |]|] eqn:G; try (intros []).
  destruct (String.eqb_spec (strip c) "") as [E|N]; [intros []|].
  destruct (value (classify_and_generate (strip c) w)) as [e|result] eqn:V;
    [intros []|].
  intros [H|[]]. injection H as <- <-.
  exists d, c, result. repeat split; trivial.
  - apply dict_get_set_same.
  - intros k K. now apply dict_get_set_other.
Qed.

(** ** Start-up, gate and engine: further properties *)

Lemma forallb_truthy_getenv (env : environ) (names : list string) :
  forallb truthy (map (os_getenv env) names) = true
  <-> forall name, In name names ->
                   exists v, os_getenv env name = Some v /\ v <> "".
Proof.
  rewrite forallb_forall. split.
  - intros H name I. specialize (H _ (in_map _ _ _ I)).
    destruct (os_getenv env name) as [[|c v]|]; try discriminate.
    eexists. split; [reflexivity | discriminate].
  - intros H x I. apply in_map_iff in I. destruct I as (name & <- & I).
    destruct (H name I) as (v & -> & N). destruct v; [contradiction | reflexivity].
Qed.

(** X1. The start-up check passes exactly when each of the six variables is
    set to a non-empty string; otherwise it raises the "Missing" exception.
    A variable set to the empty string counts as missing. *)
Theorem check_environment_spec (env : environ) :
  (check_environment env = inr tt
   <-> forall name, In name required_variables ->
                    exists v, os_getenv env name = Some v /\ v <> "")
  /\ (check_environment env = inr tt
      \/ check_environment env
         = inl (Exception "❌ Missing one or more required environment variables.")).
Proof.
  pose proof (forallb_truthy_getenv env required_variables) as F.
  unfold check_environment. cbv zeta.
  change [os_getenv env "KAFKA_BOOTSTRAP_SERVERS"; os_getenv env "KAFKA_USERNAME";
          os_getenv env "KAFKA_PASSWORD"; os_getenv env "KAFKA_INPUT_TOPIC";
          os_getenv env "KAFKA_OUTPUT_TOPIC"; os_getenv env "GROQ_API_KEY"]
    with (map (os_getenv env) required_variables).
  destruct (forallb truthy (map (os_getenv env) required_variables)); simpl.
  - split; [|now left]. split; [intros _; now apply F | reflexivity].
  - split; [|now right]. split; [discriminate|].
    intros H. apply F in H. discriminate.
Qed.

Lemma lower_char_idempotent (c : ascii) : lower_char (lower_char c) = lower_char c.
Proof.
  destruct c as [[] [] [] [] [] [] [] []]; reflexivity.
Qed.

Lemma lower_idempotent (s : string) : lower (lower s) = lower s.
Proof.
  induction s as [|c s IH]; simpl; [reflexivity|].
  now rewrite lower_char_idempotent, IH.
Qed.

Lemma prefix_lower_substring (p : string) :
  forall s, prefix p (lower s) = prefix p (lower (substring 0 (String.length p) s)).
Proof.
  induction p as [|a p IH]; intros s.
  - destruct s; reflexivity.
  - destruct s as [|c s]; [reflexivity|]. simpl.
    destruct (ascii_dec a (lower_char c)); [apply IH | reflexivity].
Qed.

Lemma prefix_length (p : string) :
  forall s, prefix p s = true -> String.length p <= String.length s.
Proof.
  induction p as [|a p IH]; intros s H; simpl; [lia|].
  destruct s as [|c s]; simpl in H; [discriminate|].
  destruct (ascii_dec a c); [|discriminate].
  apply IH in H. simpl. lia.
Qed.

Lemma lower_length (s : string) : String.length (lower s) = String.length s.
Proof.
  induction s as [|c s IH]; simpl; [reflexivity | now rewrite IH].
Qed.

(** X15. The gate of line 115 looks at the first eight characters of the
    label only, does not depend on the case of its letters, and is false for
    every label shorter than eight characters. *)
Theorem negative_gate_reads_eight_characters (s : string) :
  negative_gate s = negative_gate (substring 0 8 s)
  /\ negative_gate (lower s) = negative_gate s
  /\ (String.length s < 8 -> negative_gate s = false).
Proof.
  unfold negative_gate, startswith. repeat split.
  - apply (prefix_lower_substring "negative").
  - now rewrite lower_idempotent.
  - intros L. destruct (prefix "negative" (lower s)) eqn:P; [|reflexivity].
    apply prefix_length in P. rewrite lower_length in P. simpl in P. lia.
Qed.

Lemma sleeps_of_app (a b : list Event) :
  sleeps_of (a ++ b)%list = (sleeps_of a ++ sleeps_of b)%list.
Proof.
  induction a as [|[] a IH]; simpl; now rewrite ?IH.
Qed.

Lemma engine_sleeps notes w :
  sleeps_of (events (classify_and_generate notes w)) = [].
Proof.
  run_engine;
    try (destruct (negative_gate (strip text)); engine_red; repeat step_llm);
    reflexivity.
Qed.

(** X7. The engine's only effects are model calls and printed lines: it
    hands nothing to the producer, does not flush, does not sleep and prints
    no traceback. *)
Theorem engine_only_calls_and_prints notes w :
  forallb call_or_print (events (classify_and_generate notes w)) = true.
Proof.
  run_engine;
    try (destruct (negative_gate (strip text)); engine_red; repeat step_llm);
    reflexivity.
Qed.

(** X14. The engine prints one warning line for each failure of the
    primary: the number of printed lines is the number of calls of the
    fallback, so a run in which the primary always answers prints nothing. *)
Theorem engine_prints_once_per_failover notes w :
  let evs := events (classify_and_generate notes w) in
  List.length (prints_of evs)
  = List.length (filter is_fallback_call (calls_of evs)).
Proof.
  run_engine;
    try (destruct (negative_gate (strip text)); engine_red; repeat step_llm);
    reflexivity.
Qed.

(** X12. One run of the engine makes at least one and at most four model
    calls. *)
Theorem engine_call_count notes w :
  let calls := calls_of (events (classify_and_generate notes w)) in
  1 <= List.length calls <= 4.
Proof.
  intros calls.
  destruct (engine_calls notes w) as [K|(t & w1 & _ & _ & K)];
    fold calls in K; rewrite K; clear K.
  - destruct (chain_calls_cases (sentiment_prompt notes) w)
      as [(? & ? & _ & ->)|(? & ? & _ & ->)]; simpl; lia.
  - rewrite length_app.
    destruct (chain_calls_cases (sentiment_prompt notes) w)
      as [(? & ? & _ & ->)|(? & ? & _ & ->)];
      destruct (chain_calls_cases (action_prompt notes (strip t)) w1)
        as [(? & ? & _ & ->)|(? & ? & _ & ->)]; simpl; lia.
Qed.

(** X13. The Sentiment Label of every result is either "Unknown" or the
    trimmed answer of the classification chain; in both cases it has no
    whitespace left to trim at either end. *)
Theorem sentiment_label_is_trimmed notes w :
  exists d label,
    value (classify_and_generate notes w) = inr d
    /\ dict_get "Sentiment Label" d = Some (PyStr label)
    /\ lstrip label = label
    /\ rstrip label = label
    /\ (label = "Unknown"
        \/ exists text w1,
            chain_outcome (sentiment_prompt notes) w = (Content text, w1)
            /\ label = strip text).
Proof.
  destruct (chain_outcome (sentiment_prompt notes) w) as [[text|e2] w2] eqn:C.
  - destruct (strip_is_trimmed text) as (L & R).
    destruct (negative_gate (strip text)) eqn:G.
    + destruct (engine_negative notes w text w2 C G) as (V & _ & _).
      eexists; exists (strip text). split; [exact V|].
      repeat split; trivial. right. now exists text, w2.
    + destruct (engine_action notes w text w2 C G) as (V & _ & _).
      eexists; exists (strip text). split; [exact V|].
      repeat split; trivial. right. now exists text, w2.
  - unfold chain_outcome in C.
    destruct (llm_invoke groq_primary_llm (sentiment_prompt notes) w)
      as [[t1|e1] w1] eqn:E1; [discriminate|].
    rewrite (engine_unknown notes w e1 w1 e2 w2 E1 C).
    eexists; exists "Unknown". split; [reflexivity|].
    repeat split. now left.
Qed.

(** ** The loop: further properties *)

Lemma engine_never_flushes notes w :
  ~ In EvFlush (events (classify_and_generate notes w)).
Proof.
  run_engine;
    try (destruct (negative_gate (strip text)); engine_red; repeat step_llm);
    intros H; repeat (destruct H as [H|H]; [discriminate H|]); exact H.
Qed.

(** One iteration on a record that reaches the engine, by the outcome of
    [produce] and of [flush]. *)
Lemma loop_iteration_processed d c w :
  dict_get "comments" d = Some (PyStr c) ->
  strip c <> "" ->
  exists label reason actions,
    let result := enrichment_result (strip c) label reason actions in
    let r := classify_and_generate (strip c) w in
    let out := PyDict (dict_set "result" (PyDict result) d) in
    value r = inr result
    /\ loop_iteration (PollValue (inr (PyDict d))) w
       = match producer_produce KAFKA_OUTPUT_TOPIC out (world_after r) with
         | (Some e, w1) =>
             mkRun (inr tt) w1
               (events r
                ++ [EvProduce KAFKA_OUTPUT_TOPIC out;
                    EvPrint ("[PROCESSING ERROR] " ++ str_exn e);
                    EvTraceback e; EvSleep 250])
         | (None, w1) =>
             match producer_flush w1 with
             | (Some e, w2) =>
                 mkRun (inr tt) w2
                   (events r
                    ++ [EvProduce KAFKA_OUTPUT_TOPIC out; EvFlush;
                        EvPrint ("[PROCESSING ERROR] " ++ str_exn e);
                        EvTraceback e; EvSleep 250])
             | (None, w2) =>
                 mkRun (inr tt) w2
                   (events r
                    ++ [EvProduce KAFKA_OUTPUT_TOPIC out; EvFlush;
                        EvPrint ("✅ Published enriched message to "
                                 ++ KAFKA_OUTPUT_TOPIC);
                        EvSleep 250])
             end
         end.
Proof.
  intros G N.
  destruct (engine_returns (strip c) w) as (label & reason & actions & V & _).
  exists label, reason, actions. cbv zeta. split; [exact V|].
  unfold_loop. rewrite G. unfold_loop.
  destruct (String.eqb_spec (strip c) "") as [E|_]; [contradiction|].
  revert V. destruct (classify_and_generate (strip c) w) as [v wa evs].
  unfold_loop. intros ->.
  destruct (producer_produce _ _ wa) as [[pe|] wp]; unfold_loop.
  - now rewrite <- !app_assoc.
  - destruct (producer_flush wp) as [[fe|] wf]; unfold_loop;
      now rewrite <- !app_assoc.
Qed.

Lemma loop_iteration_value msg w : value (loop_iteration msg w) = inr tt.
Proof.
  destruct msg as [|err|[e|payload]]; try reflexivity.
  destruct payload as [| | | | |l|d]; try reflexivity.
  destruct (dict_get "comments" d) as [[| | | |c| |]|] eqn:G;
    try (unfold_loop; rewrite G; reflexivity).
  destruct (String.eqb_spec (strip c) "") as [E|N].
  - unfold_loop. rewrite G. unfold_loop. rewrite E. reflexivity.
  - destruct (loop_iteration_processed d c w G N) as (? & ? & ? & _ & ->).
    destruct (producer_produce _ _ _) as [[pe|] wp]; [reflexivity|].
    destruct (producer_flush wp) as [[fe|] wf]; reflexivity.
Qed.

Lemma kafka_loop_cons msg rest w :
  kafka_loop (msg :: rest) w
  = mkRun (value (kafka_loop rest (world_after (loop_iteration msg w))))
      (world_after (kafka_loop rest (world_after (loop_iteration msg w))))
      (events (loop_iteration msg w)
       ++ events (kafka_loop rest (world_after (loop_iteration msg w)))).
Proof.
  cbn [kafka_loop]. unfold bind at 1.
  pose proof (loop_iteration_value msg w) as V. revert V.
  destruct (loop_iteration msg w) as [v w1 evs]. cbn [value world_after events].
  intros ->. now destruct (kafka_loop rest w1).
Qed.

Lemma loop_iteration_calls msg w :
  calls_of (events (loop_iteration msg w))
  = match msg with
    | PollValue (inr (PyDict d)) =>
        match dict_get "comments" d with
        | Some (PyStr c) =>
            if String.eqb (strip c) "" then []
            else calls_of (events (classify_and_generate (strip c) w))
        | _ => []
        end
    | _ => []
    end.
Proof.
  destruct msg as [|err|[e|payload]]; try reflexivity.
  destruct payload as [| | | | |l|d]; try reflexivity.
  destruct (dict_get "comments" d) as [[| | | |c| |]|] eqn:G;
    try (unfold_loop; rewrite G; reflexivity).
  destruct (String.eqb_spec (strip c) "") as [E|N].
  - unfold_loop. rewrite G. unfold_loop. rewrite E. reflexivity.
  - destruct (loop_iteration_processed d c w G N) as (? & ? & ? & _ & ->).
    destruct (producer_produce _ _ _) as [[pe|] wp];
      [|destruct (producer_flush wp) as [[fe|] wf]];
      cbn [events]; rewrite calls_of_app; cbn [calls_of]; apply app_nil_r.
Qed.

Lemma dict_set_keys (k : string) (v : pyval) (d : dict) :
  map fst (dict_set k v d)
  = if existsb (String.eqb k) (map fst d) then map fst d
    else (map fst d ++ [k])%list.
Proof.
  induction d as [|[k' v'] d IH]; simpl; [reflexivity|].
  destruct (String.eqb_spec k k') as [->|N]; simpl; [reflexivity|].
  rewrite IH. now destruct (existsb (String.eqb k) (map fst d)).
Qed.

(** X2. The loop never raises, whatever is polled and whatever the models
    and the producer do: every iteration ends normally. *)
Theorem kafka_loop_never_raises polls w :
  value (kafka_loop polls w) = inr tt.
Proof.
  revert w. induction polls as [|msg rest IH]; intros w; [reflexivity|].
  rewrite kafka_loop_cons. cbn [value]. apply IH.
Qed.

(** X3. Polling [first] and then [second] is the loop on [first] followed by
    the loop on [second] from the world the first part left: records
    influence each other through the world only. *)
Theorem kafka_loop_app first second w :
  kafka_loop (first ++ second) w
  = mkRun (value (kafka_loop second (world_after (kafka_loop first w))))
      (world_after (kafka_loop second (world_after (kafka_loop first w))))
      (events (kafka_loop first w)
       ++ events (kafka_loop second (world_after (kafka_loop first w)))).
Proof.
  revert w. induction first as [|msg rest IH]; intros w.
  - cbn. now destruct (kafka_loop second w).
  - cbn [app]. rewrite !kafka_loop_cons, IH. cbn [value world_after events].
    now rewrite app_assoc.
Qed.

(** X4. A value that does not decode, or decodes to something that is not
    an object, is dropped: the iteration prints the error and the traceback,
    sleeps, and leaves the world untouched (no model call, nothing
    produced). *)
Theorem malformed_payload_is_dropped w :
  (forall e,
      loop_iteration (PollValue (inl e)) w
      = mkRun (inr tt) w
          [EvPrint ("[PROCESSING ERROR] " ++ str_exn e);
           EvTraceback e; EvSleep 250])
  /\ (forall v,
         (forall d, v <> PyDict d) ->
         loop_iteration (PollValue (inr v)) w
         = mkRun (inr tt) w
             [EvPrint ("[PROCESSING ERROR] "
                       ++ str_exn (AttributeError v "get"));
              EvTraceback (AttributeError v "get"); EvSleep 250]).
Proof.
  split; [reflexivity|].
  intros v N. destruct v; try reflexivity. now contradiction (N d).
Qed.

(** X5. A record whose [comments] is present but is not a string (null, a
    number, a list, ...) is not skipped as blank: [strip] raises, the
    iteration prints that error and the traceback, sleeps, and leaves the
    world untouched. *)
Theorem non_string_comments_are_an_error d v w :
  dict_get "comments" d = Some v ->
  (forall s, v <> PyStr s) ->
  loop_iteration (PollValue (inr (PyDict d))) w
  = mkRun (inr tt) w
      [EvPrint ("[PROCESSING ERROR] " ++ str_exn (AttributeError v "strip"));
       EvTraceback (AttributeError v "strip"); EvSleep 250].
Proof.
  intros G N. unfold_loop. rewrite G.
  destruct v; try reflexivity. now contradiction (N s).
Qed.

(** X6. An iteration sleeps 250 ms, once, when the message carried a value
    that was processed or failed; it does not sleep after an empty poll, a
    Kafka error, or a record skipped for blank comments. *)
Theorem loop_iteration_sleeps msg w :
  sleeps_of (events (loop_iteration msg w))
  = match msg with
    | PollNone | PollError _ => []
    | PollValue (inr (PyDict d)) =>
        match dict_get "comments" d with
        | None => []
        | Some (PyStr c) => if String.eqb (strip c) "" then [] else [250%Z]
        | Some _ => [250%Z]
        end
    | PollValue _ => [250%Z]
    end.
Proof.
  destruct msg as [|err|[e|payload]]; try reflexivity.
  destruct payload as [| | | | |l|d]; try reflexivity.
  destruct (dict_get "comments" d) as [[| | | |c| |]|] eqn:G;
    try (unfold_loop; rewrite G; reflexivity).
  destruct (String.eqb_spec (strip c) "") as [E|N].
  - unfold_loop. rewrite G. unfold_loop. rewrite E. reflexivity.
  - destruct (loop_iteration_processed d c w G N) as (? & ? & ? & _ & ->).
    destruct (producer_produce _ _ _) as [[pe|] wp];
      [|destruct (producer_flush wp) as [[fe|] wf]];
      cbn [events]; rewrite sleeps_of_app, engine_sleeps; reflexivity.
Qed.

(** X8. Every record whose [comments] is a string that is not blank gives
    exactly one record to the producer, whatever the models answer: the
    payload with the result of the engine under [result].  Its [comments]
    is the original string, the result's Caller Notes is the trimmed one,
    and the fields keep their order, with [result] replaced in place when
    the payload had one and added last when it had none. *)
Theorem every_processed_record_is_handed_over d c w :
  dict_get "comments" d = Some (PyStr c) ->
  strip c <> "" ->
  exists result,
    let out := dict_set "result" (PyDict result) d in
    value (classify_and_generate (strip c) w) = inr result
    /\ produced_of (events (loop_iteration (PollValue (inr (PyDict d))) w))
       = [(KAFKA_OUTPUT_TOPIC, PyDict out)]
    /\ dict_get "comments" out = Some (PyStr c)
    /\ dict_get "Caller Notes" result = Some (PyStr (strip c))
    /\ map fst out
       = if existsb (String.eqb "result") (map fst d) then map fst d
         else (map fst d ++ ["result"])%list.
Proof.
  intros G N.
  destruct (engine_returns (strip c) w) as (label & reason & actions & V & _).
  exists (enrichment_result (strip c) label reason actions). cbv zeta.
  split; [exact V|]. split; [|split; [|split]].
  - rewrite loop_iteration_produced, G.
    destruct (String.eqb_spec (strip c) "") as [E|_]; [contradiction|].
    now rewrite V.
  - rewrite dict_get_set_other; [exact G | discriminate].
  - reflexivity.
  - apply dict_set_keys.
Qed.

(** X9. When [produce] raises, the iteration does not flush and does not
    print the success line: it prints the error and the traceback, sleeps,
    and ends normally. *)
Theorem produce_failure_is_isolated d c w result e w1 :
  dict_get "comments" d = Some (PyStr c) ->
  strip c <> "" ->
  value (classify_and_generate (strip c) w) = inr result ->
  producer_produce KAFKA_OUTPUT_TOPIC
    (PyDict (dict_set "result" (PyDict result) d))
    (world_after (classify_and_generate (strip c) w))
  = (Some e, w1) ->
  let run := loop_iteration (PollValue (inr (PyDict d))) w in
  run = mkRun (inr tt) w1
          (events (classify_and_generate (strip c) w)
           ++ [EvProduce KAFKA_OUTPUT_TOPIC
                 (PyDict (dict_set "result" (PyDict result) d));
               EvPrint ("[PROCESSING ERROR] " ++ str_exn e);
               EvTraceback e; EvSleep 250])
  /\ ~ In EvFlush (events run).
Proof.
  intros G N V P run. subst run.
  destruct (loop_iteration_processed d c w G N) as (? & ? & ? & V' & ->).
  rewrite V in V'. injection V' as <-. rewrite P. split; [reflexivity|].
  cbn [events]. intros H. apply in_app_or in H. destruct H as [H|H].
  - now apply engine_never_flushes in H.
  - repeat (destruct H as [H|H]; [discriminate H|]). exact H.
Qed.

(** X10. When [produce] returns, [flush] is called right after it; the
    success line is printed only if [flush] returns too, and a failing
    [flush] is printed with its traceback.  Either way the iteration sleeps
    and ends normally. *)
Theorem flush_follows_produce d c w result w1 :
  dict_get "comments" d = Some (PyStr c) ->
  strip c <> "" ->
  value (classify_and_generate (strip c) w) = inr result ->
  producer_produce KAFKA_OUTPUT_TOPIC
    (PyDict (dict_set "result" (PyDict result) d))
    (world_after (classify_and_generate (strip c) w))
  = (None, w1) ->
  loop_iteration (PollValue (inr (PyDict d))) w
  = let handed :=
      EvProduce KAFKA_OUTPUT_TOPIC
        (PyDict (dict_set "result" (PyDict result) d)) in
    match producer_flush w1 with
    | (None, w2) =>
        mkRun (inr tt) w2
          (events (classify_and_generate (strip c) w)
           ++ [handed; EvFlush;
               EvPrint ("✅ Published enriched message to "
                        ++ KAFKA_OUTPUT_TOPIC);
               EvSleep 250])
    | (Some e, w2) =>
        mkRun (inr tt) w2
          (events (classify_and_generate (strip c) w)
           ++ [handed; EvFlush;
               EvPrint ("[PROCESSING ERROR] " ++ str_exn e);
               EvTraceback e; EvSleep 250])
    end.
Proof.
  intros G N V P.
  destruct (loop_iteration_processed d c w G N) as (? & ? & ? & V' & ->).
  rewrite V in V'. injection V' as <-. rewrite P. cbv zeta.
  now destruct (producer_flush w1) as [[fe|] wf].
Qed.

(** X11. The models are only called for a record whose [comments] is a
    string that is not blank, and then with the trimmed notes: the calls of
    the iteration are the calls of the engine on [strip comments], which is
    not empty and has no whitespace at either end. *)
Theorem models_see_trimmed_notes_only msg w b prompt :
  In (b, prompt) (calls_of (events (loop_iteration msg w))) ->
  exists d c,
    msg = PollValue (inr (PyDict d))
    /\ dict_get "comments" d = Some (PyStr c)
    /\ strip c <> ""
    /\ lstrip (strip c) = strip c
    /\ rstrip (strip c) = strip c
    /\ calls_of (events (loop_iteration msg w))
       = calls_of (events (classify_and_generate (strip c) w)).
Proof.
  rewrite loop_iteration_calls.
  destruct msg as [|err|[e|payload]]; try (intros []).
  destruct payload as [| | | | |l|d]; try (intros []).
  destruct (dict_get "comments" d) as [[| | | |c| |]|] eqn:G; try (intros []).
  destruct (String.eqb_spec (strip c) "") as [E|N]; [intros []|].
  intros _. exists d, c. destruct (strip_is_trimmed c) as (L & R).
  repeat split; trivial.
Qed.

(** X16. The loop hands at most one record to the producer per polled
    message: it never publishes twice for one message. *)
Theorem at_most_one_record_per_message polls w :
  List.length (produced_of (events (kafka_loop polls w))) <= List.length polls.
Proof.
  revert w. induction polls as [|msg rest IH]; intros w; [simpl; lia|].
  rewrite kafka_loop_cons. cbn [events]. rewrite produced_of_app, length_app.
  specialize (IH (world_after (loop_iteration msg w))).
  assert (L : List.length (produced_of (events (loop_iteration msg w))) <= 1).
  { rewrite loop_iteration_produced.
    destruct msg as [|err|[e|payload]]; try (simpl; lia).
    destruct payload as [| | | | |l|d]; try (simpl; lia).
    destruct (dict_get "comments" d) as [[| | | |c| |]|]; try (simpl; lia).
    destruct (String.eqb (strip c) ""); [simpl; lia|].
    destruct (value (classify_and_generate (strip c) w)); simpl; lia. }
  simpl. lia.
Qed.


(** X18. Whatever is polled, every record the loop hands to the producer
    goes to the output topic and is an object whose [result] is a
    well-formed result dict. *)
Theorem every_published_record_has_a_result polls w topic out :
  In (topic, out) (produced_of (events (kafka_loop polls w))) ->
  topic = KAFKA_OUTPUT_TOPIC
  /\ exists d result,
      out = PyDict d
      /\ dict_get "result" d = Some (PyDict result)
      /\ well_formed_result result.
Proof.
  revert w. induction polls as [|msg rest IH]; intros w; [intros []|].
  rewrite kafka_loop_cons. cbn [events]. rewrite produced_of_app.
  intros H. apply in_app_or in H. destruct H as [H|H]; [|exact (IH _ H)].
  revert H. rewrite loop_iteration_produced.
  destruct msg as [|err|[e|payload]]; try (intros []).
  destruct payload as [| | | | |l|d]; try (intros []).
  destruct (dict_get "comments" d) as [[| | | |c| |]|]; try (intros []).
  destruct (String.eqb (strip c) ""); [intros []|].
  destruct (engine_returns (strip c) w) as (label & reason & actions & V & _).
  rewrite V. intros [H|[]]. injection H as <- <-. split; [reflexivity|].
  eexists; eexists. split; [reflexivity|]. split.
  - apply dict_get_set_same.
  - apply enrichment_result_well_formed.
Qed.

End Worker.

Arguments mkRun {World A} _ _ _.
Arguments value {World A} _.
Arguments world_after {World A} _.
Arguments events {World A} _.

(** * Runs on scripted surroundings *)

(** The gate on the labels of the specification's examples. *)
Example negative_gate_examples :
  negative_gate "NEGATIVE - tone was curt" = true
  /\ negative_gate "Negative: tone was dismissive" = true
  /\ negative_gate "Positive: asked for pricing" = false
  /\ negative_gate "Not negative at all" = false
  /\ negative_gate "Mixed feelings" = false
  /\ negative_gate "" = false.
Proof. repeat split. Qed.

(** [strip] on whitespace outside ASCII: it is removed at both ends and kept
    inside the text; the zero width space is not whitespace. *)
Example strip_examples :
  strip (NBSP ++ "Negative: hung up" ++ LINE_SEPARATOR) = "Negative: hung up"
  /\ strip (NBSP ++ EM_SPACE) = ""
  /\ strip (IDEOGRAPHIC_SPACE ++ "Call me back" ++ NEL) = "Call me back"
  /\ strip ("1. Send pricing" ++ NBSP) = "1. Send pricing"
  /\ strip (" a" ++ NBSP ++ "b" ++ nl) = "a" ++ NBSP ++ "b"
  /\ strip (ZERO_WIDTH_SPACE ++ " a " ++ ZERO_WIDTH_SPACE)
     = ZERO_WIDTH_SPACE ++ " a " ++ ZERO_WIDTH_SPACE
  /\ strip ("  ❌ Skipped  ") = "❌ Skipped"
  /\ strip (" voil" ++ utf8 0xE0 ++ " ") = "voil" ++ utf8 0xE0
  /\ strip (utf8 0x20A8 ++ " 5 " ++ utf8 0x20A8)
     = utf8 0x20A8 ++ " 5 " ++ utf8 0x20A8.
Proof. repeat split. Qed.

(** A record whose comments are whitespace outside ASCII only is skipped;
    one padded with such whitespace is processed with the notes trimmed. *)
Example unicode_padding_run :
  let iteration :=
    loop_iteration (list Outcome) scripted_llm healthy_produce healthy_flush
      "calls.enriched" in
  let blank := PollValue (inr (PyDict [("comments", PyStr (NBSP ++ EM_SPACE))])) in
  let padded :=
    PollValue
      (inr (PyDict [("comments",
                     PyStr (IDEOGRAPHIC_SPACE ++ "Call me back" ++ NEL))])) in
  let answer := NBSP ++ "Negative: hung up" ++ LINE_SEPARATOR in
  events (iteration blank [Content answer])
  = [EvPrint "⚠️ Skipping empty comment field"]
  /\ calls_of (events (iteration padded [Content answer]))
     = [(groq_primary_llm, sentiment_prompt "Call me back")]
  /\ produced_of (events (iteration padded [Content answer]))
     = [("calls.enriched",
         PyDict
           [("comments", PyStr (IDEOGRAPHIC_SPACE ++ "Call me back" ++ NEL));
            ("result",
             PyDict
               (enrichment_result "Call me back" "Negative: hung up"
                  "Negative sentiment detected"
                  "❌ No action recommended due to negative sentiment."))])].
Proof. vm_compute. repeat split. Qed.

(** One healthy record through the loop: the primary answers both prompts. *)
Example healthy_record_run :
  let payload :=
    [("id", PyInt 7);
     ("comments", PyStr "Customer loved the demo, wants pricing info")] in
  let script :=
    [Content " Positive: the customer asked for pricing ";
     Content ("1. Send the price list" ++ nl)] in
  produced_of
    (events (kafka_loop (list Outcome) scripted_llm healthy_produce
               healthy_flush "calls.enriched"
               [PollNone; PollValue (inr (PyDict payload))] script))
  = [("calls.enriched",
      PyDict
        [("id", PyInt 7);
         ("comments", PyStr "Customer loved the demo, wants pricing info");
         ("result",
          PyDict
            (enrichment_result "Customer loved the demo, wants pricing info"
               "Positive: the customer asked for pricing"
               "Sentiment identified via Groq LLM"
               "1. Send the price list"))])].
Proof. vm_compute. reflexivity. Qed.

(** A payload that is not an object, and a value that does not decode, give
    no record and do not stop the loop. *)
Example malformed_records_run :
  let run :=
    kafka_loop (list Outcome) scripted_llm healthy_produce healthy_flush
      "calls.enriched"
      [PollValue (inl (Exception "Expecting value: line 1 column 1 (char 0)"));
       PollValue (inr (PyList [PyInt 1]));
       PollValue (inr (PyDict [("comments", PyNone)]))] [] in
  value run = inr tt
  /\ produced_of (events run) = []
  /\ calls_of (events run) = [].
Proof. vm_compute. repeat split. Qed.

Lemma classify_and_generate_never_raises_witness :
  "Call me back" <> ""
  /\ exists d,
      value (classify_and_generate (list Outcome) scripted_llm
               "Call me back" [])
      = inr d
      /\ well_formed_result d.
Proof.
  split; [discriminate|].
  apply classify_and_generate_never_raises. discriminate.
Defined.






Lemma failover_chain_order_witness :
  let notes := "Call me back" in
  let answer := " Positive" ++ LINE_SEPARATOR in
  let w := [Raise timeout_exn; Content answer; Content "1. Send pricing"] in
  let r := classify_and_generate (list Outcome) scripted_llm notes w in
  attempts groq_fallback_llm (sentiment_prompt notes) (calls_of (events r)) = 1
  /\ exists d,
      value r = inr d
      /\ dict_get "Sentiment Label" d = Some (PyStr "Positive").
Proof.
  exact (proj1 (proj2 (proj2 (proj2 (proj2
           (failover_chain_order (list Outcome) scripted_llm "Call me back"
              [Raise timeout_exn; Content (" Positive" ++ LINE_SEPARATOR);
               Content "1. Send pricing"])))))
           timeout_exn
           [Content (" Positive" ++ LINE_SEPARATOR); Content "1. Send pricing"]
           (" Positive" ++ LINE_SEPARATOR) [Content "1. Send pricing"]
           eq_refl eq_refl).
Defined.



Lemma non_negative_label_reaches_action_stage_witness :
  let notes := "Call me back" in
  let answer := ZERO_WIDTH_SPACE ++ "Negative: hung up" in
  let w := [Content answer] in
  let prompt := action_prompt notes answer in
  let calls :=
    calls_of (events (classify_and_generate (list Outcome) scripted_llm notes w)) in
  strip answer = answer
  /\ ~ starts_with_ignoring_case (strip answer) "negative"
  /\ (exists rest,
         calls = (chain_calls (list Outcome) scripted_llm (sentiment_prompt notes) w
                  ++ (groq_primary_llm, prompt) :: rest)%list)
  /\ attempts groq_primary_llm prompt calls = 1.
Proof.
  assert (G : ~ starts_with_ignoring_case
                (strip (ZERO_WIDTH_SPACE ++ "Negative: hung up")) "negative")
    by (intros H; apply negative_gate_iff in H; vm_compute in H; discriminate H).
  split; [reflexivity|]. split; [exact G|].
  exact (non_negative_label_reaches_action_stage (list Outcome) scripted_llm
           "Call me back" [Content (ZERO_WIDTH_SPACE ++ "Negative: hung up")]
           (ZERO_WIDTH_SPACE ++ "Negative: hung up") [] eq_refl G).
Defined.

Lemma blank_comments_are_skipped_witness :
  let d := [("id", PyInt 7); ("comments", PyStr (NBSP ++ EM_SPACE ++ " " ++ nl))] in
  let next := PollValue (inr (PyDict [("comments", PyStr "Call me back")])) in
  let w := [Content "Negative: hung up"] in
  let msg := PollValue (inr (PyDict d)) in
  let warning := EvPrint "⚠️ Skipping empty comment field" in
  let loop :=
    kafka_loop (list Outcome) scripted_llm healthy_produce healthy_flush
      "calls.enriched" in
  let iteration :=
    loop_iteration (list Outcome) scripted_llm healthy_produce healthy_flush
      "calls.enriched" in
  iteration msg w = mkRun (inr tt) w [warning]
  /\ calls_of (events (iteration msg w)) = []
  /\ produced_of (events (iteration msg w)) = []
  /\ loop [msg; next] w
     = mkRun (value (loop [next] w)) (world_after (loop [next] w))
         (warning :: events (loop [next] w)).
Proof.
  apply (blank_comments_are_skipped (list Outcome) scripted_llm healthy_produce
           healthy_flush "calls.enriched"
           [("id", PyInt 7); ("comments", PyStr (NBSP ++ EM_SPACE ++ " " ++ nl))]).
  right. exists (NBSP ++ EM_SPACE ++ " " ++ nl). split; reflexivity.
Defined.

Lemma published_record_is_payload_plus_result_witness :
  let comments := IDEOGRAPHIC_SPACE ++ "Call me back" ++ NEL in
  let d := [("id", PyInt 7); ("comments", PyStr comments)] in
  let w := [Content "Negative: hung up"] in
  let out :=
    PyDict
      [("id", PyInt 7); ("comments", PyStr comments);
       ("result",
        PyDict (enrichment_result "Call me back" "Negative: hung up"
                  "Negative sentiment detected"
                  "❌ No action recommended due to negative sentiment."))] in
  exists d' c result,
    PollValue (inr (PyDict d)) = PollValue (inr (PyDict d'))
    /\ dict_get "comments" d' = Some (PyStr c)
    /\ strip c <> ""
    /\ value (classify_and_generate (list Outcome) scripted_llm (strip c) w)
       = inr result
    /\ "calls.enriched" = "calls.enriched"
    /\ out = PyDict (dict_set "result" (PyDict result) d')
    /\ dict_get "result" (dict_set "result" (PyDict result) d')
       = Some (PyDict result)
    /\ forall k, k <> "result" ->
                 dict_get k (dict_set "result" (PyDict result) d')
                 = dict_get k d'.
Proof.
  apply (published_record_is_payload_plus_result (list Outcome) scripted_llm
           healthy_produce healthy_flush "calls.enriched").
  vm_compute. left. reflexivity.
Defined.


(** * Further runs on scripted surroundings *)

(** A variable set to the empty string stops the start-up like a missing
    one. *)
Example check_environment_examples :
  let complete :=
    [("KAFKA_BOOTSTRAP_SERVERS", "broker:9092"); ("KAFKA_USERNAME", "worker");
     ("KAFKA_PASSWORD", "secret"); ("KAFKA_INPUT_TOPIC", "calls.raw");
     ("KAFKA_OUTPUT_TOPIC", "calls.enriched"); ("GROQ_API_KEY", "gsk")] in
  check_environment complete = inr tt
  /\ check_environment (("GROQ_API_KEY", "") :: complete)
     = inl (Exception "❌ Missing one or more required environment variables.")
  /\ check_environment (tl complete)
     = inl (Exception "❌ Missing one or more required environment variables.").
Proof. repeat split. Qed.

Lemma negative_gate_reads_eight_characters_witness :
  String.length "Negativ" < 8 /\ negative_gate "Negativ" = false.
Proof.
  split; [simpl; lia|].
  apply (proj2 (proj2 (negative_gate_reads_eight_characters "Negativ"))).
  simpl; lia.
Defined.

Lemma malformed_payload_is_dropped_witness :
  let v := PyList [PyDict [("comments", PyStr "Call me back")]] in
  let w := [Content "Positive"] in
  (forall d, v <> PyDict d)
  /\ loop_iteration (list Outcome) scripted_llm healthy_produce healthy_flush
       "calls.enriched" (PollValue (inr v)) w
     = mkRun (inr tt) w
         [EvPrint "[PROCESSING ERROR] 'list' object has no attribute 'get'";
          EvTraceback (AttributeError v "get"); EvSleep 250].
Proof.
  split; [discriminate|].
  apply (proj2 (malformed_payload_is_dropped (list Outcome) scripted_llm
                  healthy_produce healthy_flush "calls.enriched"
                  [Content "Positive"])).
  discriminate.
Defined.

Lemma non_string_comments_are_an_error_witness :
  let d := [("id", PyInt 7); ("comments", PyNone)] in
  let w := [Content "Positive"] in
  dict_get "comments" d = Some PyNone
  /\ (forall s, PyNone <> PyStr s)
  /\ loop_iteration (list Outcome) scripted_llm healthy_produce healthy_flush
       "calls.enriched" (PollValue (inr (PyDict d))) w
     = mkRun (inr tt) w
         [EvPrint "[PROCESSING ERROR] 'NoneType' object has no attribute 'strip'";
          EvTraceback (AttributeError PyNone "strip"); EvSleep 250].
Proof.
  split; [reflexivity|]. split; [discriminate|].
  apply (non_string_comments_are_an_error (list Outcome) scripted_llm
           healthy_produce healthy_flush "calls.enriched"
           [("id", PyInt 7); ("comments", PyNone)] PyNone);
    [reflexivity | discriminate].
Defined.

Lemma every_processed_record_is_handed_over_witness :
  let comments := NBSP ++ "Call me back" ++ LINE_SEPARATOR in
  let d := [("id", PyInt 7); ("result", PyStr "stale");
            ("comments", PyStr comments)] in
  let w := @nil Outcome in
  strip comments = "Call me back"
  /\ exists result,
      let out := dict_set "result" (PyDict result) d in
      value (classify_and_generate (list Outcome) scripted_llm
               (strip comments) w) = inr result
      /\ produced_of
           (events (loop_iteration (list Outcome) scripted_llm healthy_produce
                      healthy_flush "calls.enriched"
                      (PollValue (inr (PyDict d))) w))
         = [("calls.enriched", PyDict out)]
      /\ dict_get "comments" out = Some (PyStr comments)
      /\ dict_get "Caller Notes" result = Some (PyStr (strip comments))
      /\ map fst out
         = if existsb (String.eqb "result") (map fst d) then map fst d
           else (map fst d ++ ["result"])%list.
Proof.
  split; [reflexivity|].
  apply (every_processed_record_is_handed_over (list Outcome) scripted_llm
           healthy_produce healthy_flush "calls.enriched"
           [("id", PyInt 7); ("result", PyStr "stale");
            ("comments", PyStr (NBSP ++ "Call me back" ++ LINE_SEPARATOR))]
           (NBSP ++ "Call me back" ++ LINE_SEPARATOR) []);
    [reflexivity | vm_compute; discriminate].
Defined.

Lemma produce_failure_is_isolated_witness :
  let comments := IDEOGRAPHIC_SPACE ++ "Call me back" in
  let d := [("comments", PyStr comments)] in
  let w := [Content "Negative: hung up"] in
  let result :=
    enrichment_result "Call me back" "Negative: hung up"
      "Negative sentiment detected"
      "❌ No action recommended due to negative sentiment." in
  let run :=
    loop_iteration (list Outcome) scripted_llm failing_produce healthy_flush
      "calls.enriched" (PollValue (inr (PyDict d))) w in
  run = mkRun (inr tt) []
          (events (classify_and_generate (list Outcome) scripted_llm
                     (strip comments) w)
           ++ [EvProduce "calls.enriched"
                 (PyDict (dict_set "result" (PyDict result) d));
               EvPrint ("[PROCESSING ERROR] " ++ str_exn full_queue_exn);
               EvTraceback full_queue_exn; EvSleep 250])
  /\ ~ In EvFlush (events run).
Proof.
  apply (produce_failure_is_isolated (list Outcome) scripted_llm
           failing_produce healthy_flush "calls.enriched"
           [("comments", PyStr (IDEOGRAPHIC_SPACE ++ "Call me back"))]
           (IDEOGRAPHIC_SPACE ++ "Call me back")
           [Content "Negative: hung up"]);
    [reflexivity | vm_compute; discriminate | reflexivity | reflexivity].
Defined.

Lemma flush_follows_produce_witness :
  let comments := "Call me back" ++ NEL in
  let d := [("comments", PyStr comments)] in
  let w := [Content "Negative: hung up"] in
  let result :=
    enrichment_result "Call me back" "Negative: hung up"
      "Negative sentiment detected"
      "❌ No action recommended due to negative sentiment." in
  loop_iteration (list Outcome) scripted_llm healthy_produce failing_flush
    "calls.enriched" (PollValue (inr (PyDict d))) w
  = mkRun (inr tt) []
      (events (classify_and_generate (list Outcome) scripted_llm
                 (strip comments) w)
       ++ [EvProduce "calls.enriched"
             (PyDict (dict_set "result" (PyDict result) d));
           EvFlush;
           EvPrint ("[PROCESSING ERROR] " ++ str_exn broker_down_exn);
           EvTraceback broker_down_exn; EvSleep 250]).
Proof.
  apply (flush_follows_produce (list Outcome) scripted_llm
           healthy_produce failing_flush "calls.enriched"
           [("comments", PyStr ("Call me back" ++ NEL))] ("Call me back" ++ NEL)
           [Content "Negative: hung up"]
           (enrichment_result "Call me back" "Negative: hung up"
              "Negative sentiment detected"
              "❌ No action recommended due to negative sentiment.")
           []);
    [reflexivity | vm_compute; discriminate | reflexivity | reflexivity].
Defined.

Lemma models_see_trimmed_notes_only_witness :
  let comments := IDEOGRAPHIC_SPACE ++ "Call me back" ++ NEL in
  let msg := PollValue (inr (PyDict [("comments", PyStr comments)])) in
  let w := [Content "Negative: hung up"] in
  let iteration :=
    loop_iteration (list Outcome) scripted_llm healthy_produce healthy_flush
      "calls.enriched" msg w in
  In (groq_primary_llm, sentiment_prompt "Call me back")
    (calls_of (events iteration))
  /\ exists d c,
      msg = PollValue (inr (PyDict d))
      /\ dict_get "comments" d = Some (PyStr c)
      /\ strip c <> ""
      /\ lstrip (strip c) = strip c
      /\ rstrip (strip c) = strip c
      /\ calls_of (events iteration)
         = calls_of (events (classify_and_generate (list Outcome) scripted_llm
                               (strip c) w)).
Proof.
  assert (I : In (groq_primary_llm, sentiment_prompt "Call me back")
                (calls_of
                   (events
                      (loop_iteration (list Outcome) scripted_llm
                         healthy_produce healthy_flush "calls.enriched"
                         (PollValue
                            (inr (PyDict
                                    [("comments",
                                      PyStr (IDEOGRAPHIC_SPACE
                                             ++ "Call me back" ++ NEL))])))
                         [Content "Negative: hung up"]))))
    by (vm_compute; left; reflexivity).
  split; [exact I|].
  exact (models_see_trimmed_notes_only (list Outcome) scripted_llm
           healthy_produce healthy_flush "calls.enriched" _ _ _ _ I).
Defined.


Lemma every_published_record_has_a_result_witness :
  let polls :=
    [PollError "Broker transport failure";
     PollValue (inr (PyDict [("comments", PyStr "Call me back")]))] in
  let w := @nil Outcome in
  let out :=
    PyDict
      [("comments", PyStr "Call me back");
       ("result",
        PyDict (enrichment_result "Call me back" "Unknown"
                  "❌ Both LLMs failed for sentiment: connection refused"
                  "❌ Skipped due to classification error"))] in
  "calls.enriched" = "calls.enriched"
  /\ exists d result,
      out = PyDict d
      /\ dict_get "result" d = Some (PyDict result)
      /\ well_formed_result result.
Proof.
  apply (every_published_record_has_a_result (list Outcome) scripted_llm
           healthy_produce healthy_flush "calls.enriched"
           [PollError "Broker transport failure";
            PollValue (inr (PyDict [("comments", PyStr "Call me back")]))]
           []).
  vm_compute. left. reflexivity.
Defined.
